(** * Oxomo: checkpointed OAI-PMH harvesting into MongoDB

    A shallow embedding of [oxomo/CheckPoint.py] (class [OxomoCheckPoint]) and
    [oxomo/OxomoHarvester.py] (class [OxomoHarvester]), and the properties of
    the checkpoint ledger and of the outcome routing proved about them.

    The two external collaborators are modelled at their interface:
    - the document store (pymongo): a finite map from (database, collection)
      to the list of stored documents, with the driver's [drop],
      [insert_one], [insert_many], [update_one], [find] and
      [list_collection_names];
    - the protocol client (pyoai): a record of the four remote operations,
      each of which may raise, the two listings being lazy sequences that
      may raise while they are iterated;
    - the host (psutil, joblib): the CPU count and the worker pool. The
      behaviour of the pool is fixed for one job only, where joblib runs the
      tasks in the calling thread and in order; every statement about a pass
      of [run] that dispatches tasks is about [run] with one job. *)

From Stdlib Require Import ZArith String List Bool Lia.
From stdpp Require Import base option list gmap strings.

Set Default Proof Using "Type".

(** ** Values and documents *)

(** The Python and BSON values the program handles. A document (a Python
    [dict]) keeps its keys in insertion order. *)
#[warnings="-register-all"]
Inductive value : Type :=
| VInt (z : Z)
| VStr (s : string)
| VOid (n : nat)
| VList (l : list value)
| VDoc (d : list (string * value)).

Abbreviation doc := (list (string * value)).

Fixpoint value_eqb (a b : value) {struct a} : bool :=
  match a, b with
  | VInt x, VInt y => Z.eqb x y
  | VStr x, VStr y => String.eqb x y
  | VOid x, VOid y => Nat.eqb x y
  | VList xs, VList ys =>
      (fix go (l : list value) (r : list value) {struct l} : bool :=
         match l, r with
         | [], [] => true
         | x :: l', y :: r' => value_eqb x y && go l' r'
         | _, _ => false
         end) xs ys
  | VDoc xs, VDoc ys =>
      (fix go (l : list (string * value)) (r : list (string * value))
           {struct l} : bool :=
         match l, r with
         | [], [] => true
         | (k, x) :: l', (k', y) :: r' =>
             String.eqb k k' && value_eqb x y && go l' r'
         | _, _ => false
         end) xs ys
  | _, _ => false
  end.

(** [d[k]] as an option: the value of the first binding of [k]. *)
Fixpoint dict_get (k : string) (d : doc) : option value :=
  match d with
  | [] => None
  | (k', v) :: d' => if String.eqb k' k then Some v else dict_get k d'
  end.

(** [d[k] = v]: an existing key keeps its place, a new key goes last. *)
Fixpoint dict_set (k : string) (v : value) (d : doc) : doc :=
  match d with
  | [] => [(k, v)]
  | (k', v') :: d' =>
      if String.eqb k' k then (k, v) :: d' else (k', v') :: dict_set k v d'
  end.

(** The document without the field [k]. *)
Fixpoint dict_del (k : string) (d : doc) : doc :=
  match d with
  | [] => []
  | (k', v) :: d' =>
      if String.eqb k' k then dict_del k d' else (k', v) :: dict_del k d'
  end.

(** ** Exceptions *)

(** A raised Python exception: its class (as [type(e)] names it) and its
    message ([str(e)]). *)
Record exn : Type := Exn { exn_class : string; exn_msg : string }.

Definition DuplicateKeyError : exn :=
  Exn "pymongo.errors.DuplicateKeyError" "E11000 duplicate key error".
Definition BulkWriteError : exn :=
  Exn "pymongo.errors.BulkWriteError" "batch op errors occurred".
Definition EmptyInsertError : exn :=
  Exn "TypeError" "documents must be a non-empty list".
Definition KeyError (k : string) : exn := Exn "KeyError" k.

(** [str(type(e))] *)
Definition str_type (e : exn) : string := "<class '" +:+ exn_class e +:+ "'>".

(** ** The document store *)

(** The server: every existing collection, keyed by (database, collection
    name), with its documents in insertion order, and the counter the driver
    draws fresh [ObjectId]s from. *)
Record mongo : Type := Mongo {
  colls : gmap (string * string) (list doc);
  next_oid : nat
}.

Definition docs_of (st : mongo) (db c : string) : list doc :=
  default [] (colls st !! (db, c)).

(** A query filter of field equalities, as the program writes them. *)
Definition matches (flt d : doc) : bool :=
  forallb (fun kv => match dict_get (fst kv) d with
                     | Some w => value_eqb w (snd kv)
                     | None => false
                     end) flt.

Definition has_id (v : value) (d : doc) : bool :=
  match dict_get "_id" d with
  | Some w => value_eqb w v
  | None => false
  end.

(** The stored form of a document: [_id] comes first. *)
Definition store_form (v : value) (d : doc) : doc :=
  ("_id", v) :: dict_del "_id" d.

(** The first document matching [flt] gets the fields of [upd] set. *)
Fixpoint update_first (flt upd : doc) (ds : list doc) : list doc :=
  match ds with
  | [] => []
  | d :: ds' =>
      if matches flt d
      then fold_left (fun acc kv => dict_set (fst kv) (snd kv) acc) upd d :: ds'
      else d :: update_first flt upd ds'
  end.

(** The operations of the driver that the program calls. *)
Inductive store_op : Type :=
| OpDrop (db c : string)
| OpInsertOne (db c : string) (d : doc)
| OpInsertMany (db c : string) (ds : list doc)
| OpUpdateOne (db c : string) (flt upd : doc)
| OpFind (db c : string) (flt : doc) (excl : list string)
| OpListCollectionNames (db : string).

Inductive reply : Type :=
| RUnit
| RDocs (ds : list doc)
| RNames (ns : list string).

Inductive result (A : Type) : Type :=
| Ok (a : A)
| Raise (e : exn).
Arguments Ok {A} a.
Arguments Raise {A} e.

(** [insert_one]: a document without [_id] gets a fresh [ObjectId]; one whose
    [_id] is already in the collection is refused. *)
Definition server_insert (db c : string) (d : doc) (st : mongo)
  : result unit * mongo :=
  let cur := docs_of st db c in
  match dict_get "_id" d with
  | None =>
      (Ok (), Mongo (<[(db, c) := cur ++ [store_form (VOid (next_oid st)) d]]>
                       (colls st))
                    (S (next_oid st)))
  | Some v =>
      if existsb (has_id v) cur
      then (Raise DuplicateKeyError, st)
      else (Ok (), Mongo (<[(db, c) := cur ++ [store_form v d]]> (colls st))
                         (next_oid st))
  end.

(** Ordered bulk insert: stops at the first refused document, keeping the
    ones before it. *)
Fixpoint server_insert_many (db c : string) (ds : list doc) (st : mongo)
  : result unit * mongo :=
  match ds with
  | [] => (Ok (), st)
  | d :: ds' =>
      match server_insert db c d st with
      | (Ok _, st') => server_insert_many db c ds' st'
      | (Raise _, st') => (Raise BulkWriteError, st')
      end
  end.

Definition server_update (db c : string) (flt upd : doc) (st : mongo) : mongo :=
  match colls st !! (db, c) with
  | None => st
  | Some cur => Mongo (<[(db, c) := update_first flt upd cur]> (colls st))
                      (next_oid st)
  end.

Definition project (excl : list string) (d : doc) : doc :=
  fold_left (fun acc k => dict_del k acc) excl d.

Definition server_names (db : string) (st : mongo) : list string :=
  omap (fun kv : (string * string) * list doc =>
          if String.eqb (fst (fst kv)) db then Some (snd (fst kv)) else None)
       (map_to_list (colls st)).

Definition apply_op (o : store_op) (st : mongo) : result reply * mongo :=
  match o with
  | OpDrop db c => (Ok RUnit, Mongo (delete (db, c) (colls st)) (next_oid st))
  | OpInsertOne db c d =>
      match server_insert db c d st with
      | (Ok _, st') => (Ok RUnit, st')
      | (Raise e, st') => (Raise e, st')
      end
  | OpInsertMany db c ds =>
      match ds with
      | [] => (Raise EmptyInsertError, st)
      | _ =>
          match server_insert_many db c ds st with
          | (Ok _, st') => (Ok RUnit, st')
          | (Raise e, st') => (Raise e, st')
          end
      end
  | OpUpdateOne db c flt upd => (Ok RUnit, server_update db c flt upd st)
  | OpFind db c flt excl =>
      (Ok (RDocs (map (project excl) (filter (fun d => matches flt d = true)
                                             (docs_of st db c)))), st)
  | OpListCollectionNames db => (Ok (RNames (server_names db st)), st)
  end.

(** ** The effect monad *)

(** What a computation does to the outside world, in the order it does it:
    driver calls, remote calls and printed lines. *)
Inductive event : Type :=
| EvStore (o : store_op)
| EvIdentify (url : string)
| EvListIdentifiers (url : string) (set_ : option value)
| EvListSets (url : string)
| EvGetRecord (url : string) (identifier : value)
| EvPrint (line : list value).

(** A computation runs on the store and returns a value or raises, together
    with the store it leaves and the events it performed. *)
Definition M (A : Type) : Type := mongo -> result A * mongo * list event.

#[global] Instance M_ret : MRet M := fun A a st => (Ok a, st, []).

#[global] Instance M_bind : MBind M := fun A B f m st =>
  match m st with
  | (Ok a, st', t) =>
      match f a st' with
      | (r, st'', t') => (r, st'', t ++ t')
      end
  | (Raise e, st', t) => (Raise e, st', t)
  end.

#[global] Instance M_throw : MThrow exn M := fun A e st => (Raise e, st, []).

(** [try: m except Exception as e: ...]: the exception becomes a value. *)
Definition attempt {A} (m : M A) : M (result A) := fun st =>
  match m st with
  | (r, st', t) => (Ok r, st', t)
  end.

Definition emit (ev : event) : M unit := fun st => (Ok (), st, [ev]).

Definition perform (o : store_op) : M reply := fun st =>
  match apply_op o st with
  | (r, st') => (r, st', [EvStore o])
  end.

Definition lift_result {A} (r : result A) : M A :=
  match r with
  | Ok a => mret a
  | Raise e => mthrow e
  end.

(** [print]: the pieces of the line, the formatted values kept as values. *)
Definition print (line : list value) : M unit := emit (EvPrint line).

(** [d[k]], raising [KeyError] *)
Definition getitem (d : doc) (k : string) : M value :=
  match dict_get k d with
  | Some v => mret v
  | None => mthrow (KeyError ("'" +:+ k +:+ "'"))
  end.

(** *** pymongo *)

Definition coll_drop (db c : string) : M unit :=
  perform (OpDrop db c);; mret ().

Definition insert_one (db c : string) (d : doc) : M unit :=
  perform (OpInsertOne db c d);; mret ().

Definition insert_many (db c : string) (ds : list doc) : M unit :=
  perform (OpInsertMany db c ds);; mret ().

(** [update_one(flt, {"$set": upd})] *)
Definition update_one (db c : string) (flt upd : doc) : M unit :=
  perform (OpUpdateOne db c flt upd);; mret ().

(** [list(find(flt, {k: 0 for k in excl}))] *)
Definition find (db c : string) (flt : doc) (excl : list string)
  : M (list doc) :=
  r ← perform (OpFind db c flt excl);
  mret match r with RDocs ds => ds | _ => [] end.

Definition list_collection_names (db : string) : M (list string) :=
  r ← perform (OpListCollectionNames db);
  mret match r with RNames ns => ns | _ => [] end.

(** *** The protocol client *)

(** A lazy sequence: it yields [items], then stops, or raises [failure]. *)
Record lazy_seq (A : Type) : Type := LazySeq {
  items : list A;
  failure : option exn
}.
Arguments LazySeq {A} items failure.
Arguments items {A} l.
Arguments failure {A} l.

Record Identify : Type := {
  repositoryName : value;
  adminEmails : value;
  baseURL : value;
  protocolVersion : value;
  earliestDatestamp : value;
  granularity : value
}.

Record Header : Type := { isDeleted : bool }.
Record Metadata : Type := { getMap : doc }.

(** A client bound to one endpoint: what each remote call answers. *)
Record Client : Type := {
  client_url : string;
  remote_identify : result Identify;
  remote_listIdentifiers : option value -> result (lazy_seq string);
  remote_listSets : result (lazy_seq (string * string));
  remote_getRecord : value -> result (Header * Metadata)
}.

Definition identify (client : Client) : M Identify :=
  emit (EvIdentify (client_url client));;
  lift_result (remote_identify client).

Definition listIdentifiers (client : Client) (set_ : option value)
  : M (lazy_seq string) :=
  emit (EvListIdentifiers (client_url client) set_);;
  lift_result (remote_listIdentifiers client set_).

Definition listSets (client : Client) : M (lazy_seq (string * string)) :=
  emit (EvListSets (client_url client));;
  lift_result (remote_listSets client).

Definition getRecord (client : Client) (identifier : value)
  : M (Header * Metadata) :=
  emit (EvGetRecord (client_url client) identifier);;
  lift_result (remote_getRecord client identifier).

(** [acc = []; for x in s: acc.append(f(x))] *)
Definition collect {A B} (s : lazy_seq A) (f : A -> B) : M (list B) :=
  match failure s with
  | None => mret (map f (items s))
  | Some e => mthrow e
  end.

(** ** joblib and psutil *)

(** Tasks run by the calling thread, one after the other in the order they
    are submitted; the first task that raises ends the loop and the tasks
    after it are not started. *)
Fixpoint in_order (tasks : list (M unit)) : M unit :=
  match tasks with
  | [] => mret ()
  | t :: tasks' => t;; in_order tasks'
  end.

(** The host the harvester runs on: what [psutil.cpu_count()] answers and
    what [joblib.Parallel(n_jobs=n, backend='threading')(tasks)] does.
    With [n_jobs=1] joblib starts no worker thread: the tasks run in the
    calling thread, in submission order, and an exception of a task leaves
    the call at once. With any other [n_jobs] the tasks run concurrently on
    the threads of the pool, a task that raises does not stop the tasks
    already started, and the order of their driver calls is not fixed; the
    model leaves that behaviour open and fixes only the pool of one job. *)
Definition one_job : option Z := Some 1%Z.

Record Host : Type := {
  cpu_count : option Z;
  Parallel : option Z -> list (M unit) -> M unit;
  Parallel_one_job : forall tasks, Parallel one_job tasks = in_order tasks
}.

(** ** CheckPoint.py *)

Module OxomoCheckPoint.

Section Remote.
(** [Client(base_url, registry)]: the client of the endpoint at a URL. *)
Variable remote : string -> Client.

Definition create (base_url mongo_db mongo_collection : string) : M unit :=
  let client := remote base_url in
  identity ← identify client;
  let info : doc := [] in
  let info := dict_set "repository_name" (repositoryName identity) info in
  let info := dict_set "admin_emails" (adminEmails identity) info in
  let info := dict_set "base_url" (baseURL identity) info in
  let info := dict_set "protocol_version" (protocolVersion identity) info in
  let info := dict_set "earliest_datestamp" (earliestDatestamp identity) info in
  let info := dict_set "granularity" (granularity identity) info in
  coll_drop mongo_db (mongo_collection +:+ "_identity");;
  insert_one mongo_db (mongo_collection +:+ "_identity") info;;
  ids ← listIdentifiers client None;
  print [VStr "=== Getting Records ids from "; VStr base_url;
         VStr "  for "; VStr mongo_collection];;
  identifiers ← collect ids (fun i =>
    dict_set "status" (VInt 0) (dict_set "_id" (VStr i) []));
  coll_drop mongo_db (mongo_collection +:+ "_records_checkpoint");;
  insert_many mongo_db (mongo_collection +:+ "_records_checkpoint") identifiers;;
  print [VStr "=== Records CheckPoint total records found = ";
         VInt (Z.of_nat (length identifiers))];;
  sets_regs ← listSets client;
  print [VStr "=== Getting Sets ids from "; VStr base_url;
         VStr "  for "; VStr mongo_collection];;
  sets ← collect sets_regs (fun s =>
    dict_set "status" (VInt 0)
      (dict_set "name" (VStr (snd s)) (dict_set "_id" (VStr (fst s)) [])));
  coll_drop mongo_db (mongo_collection +:+ "_sets_checkpoint");;
  insert_many mongo_db (mongo_collection +:+ "_sets_checkpoint") sets;;
  print [VStr "=== Sets CheckPoint total sets found = ";
         VInt (Z.of_nat (length sets))].

End Remote.

Definition exists_ (mongo_db mongo_collection : string) : M bool :=
  let ckp_rec := mongo_collection +:+ "_records_checkpoint" in
  let ckp_set := mongo_collection +:+ "_sets_checkpoint" in
  collections ← list_collection_names mongo_db;
  mret (existsb (String.eqb ckp_rec) collections
        && existsb (String.eqb ckp_set) collections).

Definition drop (mongo_db mongo_collection : string) : M unit :=
  coll_drop mongo_db (mongo_collection +:+ "_identity");;
  coll_drop mongo_db (mongo_collection +:+ "_records_checkpoint");;
  coll_drop mongo_db (mongo_collection +:+ "_sets_checkpoint").

Definition update_record (mongo_db mongo_collection : string) (keys : doc)
  : M unit :=
  update_one mongo_db (mongo_collection +:+ "_records_checkpoint")
    keys [("status", VInt 1)].

Definition update_set (mongo_db mongo_collection : string) (keys : doc)
  : M unit :=
  update_one mongo_db (mongo_collection +:+ "_sets_checkpoint")
    keys [("status", VInt 1)].

Definition get_records_regs (mongo_db mongo_collection : string)
  : M (list doc) :=
  find mongo_db (mongo_collection +:+ "_records_checkpoint")
    [("status", VInt 0)] ["status"].

Definition get_sets_regs (mongo_db mongo_collection : string)
  : M (list doc) :=
  find mongo_db (mongo_collection +:+ "_sets_checkpoint")
    [("status", VInt 0)] ["status"].

End OxomoCheckPoint.

(** ** OxomoHarvester.py *)

Module OxomoHarvester.

(** The harvester object: the endpoints (URL and collection name, in the
    order of the configuration) and the database fixed at construction. *)
Record t : Type := {
  endpoints : list (string * string);
  mongo_db : string
}.

Definition process_record (self : t) (client : Client) (identifier : value)
    (mongo_db mongo_collection : string) : M unit :=
  r ← attempt (getRecord client identifier);
  match r with
  | Raise e =>
      let record : doc := [] in
      let record := dict_set "_id" identifier record in
      let record := dict_set "instance" (VStr (str_type e)) record in
      let record := dict_set "item_type" (VStr "record") record in
      let record := dict_set "msg" (VStr (exn_msg e)) record in
      insert_one mongo_db (mongo_collection +:+ "_errors") record;;
      OxomoCheckPoint.update_record
        (OxomoHarvester.mongo_db self) mongo_collection [("_id", identifier)];;
      print [VStr "=== ERROR ==="];;
      print [VStr (exn_msg e)];;
      print [identifier]
  | Ok raw_record =>
      if isDeleted (fst raw_record) then
        let record : doc := [] in
        let record := dict_set "_id" identifier record in
        insert_one mongo_db (mongo_collection +:+ "_deleted") record;;
        OxomoCheckPoint.update_record
          (OxomoHarvester.mongo_db self) mongo_collection [("_id", identifier)];;
        print [VStr "=== WARNING ==="];;
        print [VStr "=== Found deleted record "; identifier]
      else
        let record := getMap (snd raw_record) in
        let record := dict_set "_id" identifier record in
        insert_one mongo_db (mongo_collection +:+ "_records") record;;
        OxomoCheckPoint.update_record
          (OxomoHarvester.mongo_db self) mongo_collection [("_id", identifier)]
  end.

Definition process_set (self : t) (client : Client) (identifier : doc)
    (mongo_db mongo_collection : string) : M unit :=
  r ← attempt (set_ ← getitem identifier "_id";
               listIdentifiers client (Some set_));
  match r with
  | Raise e =>
      let record : doc := [] in
      let record := dict_set "_id" (VDoc identifier) record in
      let record := dict_set "instance" (VStr (str_type e)) record in
      let record := dict_set "item_type" (VStr "set") record in
      let record := dict_set "msg" (VStr (exn_msg e)) record in
      insert_one mongo_db (mongo_collection +:+ "_errors") record;;
      key ← getitem identifier "_id";
      OxomoCheckPoint.update_set
        (OxomoHarvester.mongo_db self) mongo_collection [("_id", key)];;
      print [VStr "=== ERROR ==="];;
      print [VStr (exn_msg e)];;
      print [VDoc identifier]
  | Ok record_ids =>
      records ← collect record_ids VStr;
      let set_records : doc := [] in
      id_ ← getitem identifier "_id";
      let set_records := dict_set "_id" id_ set_records in
      name ← getitem identifier "name";
      let set_records := dict_set "name" name set_records in
      let set_records := dict_set "records" (VList records) set_records in
      insert_one mongo_db (mongo_collection +:+ "_sets") set_records;;
      key ← getitem identifier "_id";
      OxomoCheckPoint.update_set
        (OxomoHarvester.mongo_db self) mongo_collection [("_id", key)]
  end.

Section Remote.
Variable remote : string -> Client.
Variable host : Host.

(** One endpoint of [run]'s loop, with the number of jobs [run] settled
    on. *)
Definition run_endpoint (self : t) (jobs : option Z)
    (endpoint : string * string) : M unit :=
  let url := fst endpoint in
  let mongo_collection := snd endpoint in
  print [VStr "=== Processing "; VStr mongo_collection; VStr " from ";
         VStr url; VStr " "];;
  ex ← OxomoCheckPoint.exists_ (mongo_db self) mongo_collection;
  if ex : bool then
    let client := remote url in
    record_ids ← OxomoCheckPoint.get_records_regs (mongo_db self) mongo_collection;
    Parallel host jobs
      (map (fun record =>
              id_ ← getitem record "_id";
              process_record self client id_ (mongo_db self) mongo_collection)
         record_ids);;
    set_ids ← OxomoCheckPoint.get_sets_regs (mongo_db self) mongo_collection;
    Parallel host jobs
      (map (fun set_id =>
              process_set self client set_id (mongo_db self) mongo_collection)
         set_ids)
  else
    print [VStr "*** Error: checkpoint for "; VStr url;
           VStr " not found, create it first with ..."];;
    print [VStr "*** Omitting "; VStr url; VStr " "; VStr mongo_collection].

Fixpoint run_loop (self : t) (jobs : option Z) (eps : list (string * string))
  : M unit :=
  match eps with
  | [] => mret ()
  | endpoint :: eps' => run_endpoint self jobs endpoint;; run_loop self jobs eps'
  end.

(** [run(self, jobs=None)]: without [jobs], the CPU count of the host. *)
Definition run (self : t) (jobs : option Z) : M unit :=
  let jobs := match jobs with
              | None => cpu_count host
              | Some n => Some n
              end in
  run_loop self jobs (endpoints self).

End Remote.

End OxomoHarvester.

(** ** Observing a computation *)

(** The driver calls among the events of a trace, in order. *)
Definition store_ops (t : list event) : list store_op :=
  omap (fun ev => match ev with EvStore o => Some o | _ => None end) t.

(** The identifiers [getRecord] was called on, in order. *)
Definition fetched (t : list event) : list value :=
  omap (fun ev => match ev with EvGetRecord _ i => Some i | _ => None end) t.

(** The store after the driver calls [os], whatever each one answered. *)
Definition replay (os : list store_op) (st : mongo) : mongo :=
  fold_left (fun s o => snd (apply_op o s)) os st.

(** The store a computation leaves when the process is stopped after its
    first [k] driver calls. *)
Definition interrupted {A} (m : M A) (st : mongo) (k : nat) : mongo :=
  replay (take k (store_ops (snd (m st)))) st.

Definition is_write (o : store_op) : bool :=
  match o with
  | OpFind _ _ _ _ | OpListCollectionNames _ => false
  | _ => true
  end.

Definition is_drop (o : store_op) : bool :=
  match o with
  | OpDrop _ _ => true
  | _ => false
  end.

(** The database a driver call addresses. *)
Definition op_db (o : store_op) : string :=
  match o with
  | OpDrop db _ | OpInsertOne db _ _ | OpInsertMany db _ _
  | OpUpdateOne db _ _ _ | OpFind db _ _ _ | OpListCollectionNames db => db
  end.

(** ** The ledger *)

Definition pending (d : doc) : bool :=
  match dict_get "status" d with
  | Some v => value_eqb v (VInt 0)
  | None => false
  end.

Definition done (d : doc) : bool :=
  match dict_get "status" d with
  | Some v => value_eqb v (VInt 1)
  | None => false
  end.

Definition records_ledger (st : mongo) (db c : string) : list doc :=
  docs_of st db (c +:+ "_records_checkpoint").

Definition sets_ledger (st : mongo) (db c : string) : list doc :=
  docs_of st db (c +:+ "_sets_checkpoint").

(** The collection [c] of [db] holds a done entry with this [_id]. *)
Definition done_in (st : mongo) (db c : string) (i : value) : Prop :=
  exists d, In d (docs_of st db c) /\ has_id i d = true /\ done d = true.

(** A nested induction principle for values. *)
Section value_induction.
Variable P : value -> Prop.
Hypothesis HInt : forall z, P (VInt z).
Hypothesis HStr : forall s, P (VStr s).
Hypothesis HOid : forall n, P (VOid n).
Hypothesis HList : forall l, Forall P l -> P (VList l).
Hypothesis HDoc : forall d, Forall (fun kv => P (snd kv)) d -> P (VDoc d).

Fixpoint value_nested_ind (v : value) : P v :=
  match v with
  | VInt z => HInt z
  | VStr s => HStr s
  | VOid n => HOid n
  | VList l =>
      HList l ((fix go (l : list value) : Forall P l :=
                  match l with
                  | [] => @List.Forall_nil _ P
                  | x :: l' =>
                      @List.Forall_cons _ P x l' (value_nested_ind x) (go l')
                  end) l)
  | VDoc d =>
      HDoc d ((fix go (d : doc) : Forall (fun kv => P (snd kv)) d :=
                 match d with
                 | [] => @List.Forall_nil _ _
                 | kv :: d' =>
                     @List.Forall_cons _ _ kv d'
                       (value_nested_ind (snd kv)) (go d')
                 end) d)
  end.
End value_induction.

(** ** What the claims speak of *)

Definition error_record (i : value) (kind : string) (e : exn) : doc :=
  [("_id", i); ("instance", VStr (str_type e)); ("item_type", VStr kind);
   ("msg", VStr (exn_msg e))].

(** The outcome of a record, read off the answer of [getRecord]: the sink and
    the document handed to [insert_one]. *)
Definition record_outcome (client : Client) (i : value) (c : string)
  : string * doc :=
  match remote_getRecord client i with
  | Raise e => (c +:+ "_errors", error_record i "record" e)
  | Ok raw =>
      if isDeleted (fst raw) then (c +:+ "_deleted", [("_id", i)])
      else (c +:+ "_records", dict_set "_id" i (getMap (snd raw)))
  end.

(** The lines [process_record] prints after the ledger update. *)
Definition record_prints (client : Client) (i : value) : list event :=
  match remote_getRecord client i with
  | Raise e => [EvPrint [VStr "=== ERROR ==="]; EvPrint [VStr (exn_msg e)];
                EvPrint [i]]
  | Ok raw =>
      if isDeleted (fst raw)
      then [EvPrint [VStr "=== WARNING ==="];
            EvPrint [VStr "=== Found deleted record "; i]]
      else []
  end.

(** The ledger update of a finished item. *)
Definition mark_record_done (db c : string) (i : value) : store_op :=
  OpUpdateOne db (c +:+ "_records_checkpoint") [("_id", i)] [("status", VInt 1)].

Definition mark_set_done (db c : string) (i : value) : store_op :=
  OpUpdateOne db (c +:+ "_sets_checkpoint") [("_id", i)] [("status", VInt 1)].

(** The first entry of [ledger] with [_id] [i] is pending. *)
Definition pending_entry (i : value) (ledger : list doc) : bool :=
  match List.find (has_id i) ledger with
  | Some d => pending d
  | None => false
  end.

(** From [before] to [after] exactly one entry, the first with [_id] [i],
    went from pending to done; every other entry is as it was. *)
Definition one_transition (i : value) (before after : list doc) : Prop :=
  exists pre d post,
    before = pre ++ d :: post /\
    Forall (fun x => has_id i x = false) pre /\
    has_id i d = true /\ pending d = true /\
    after = pre ++ dict_set "status" (VInt 1) d :: post /\
    done (dict_set "status" (VInt 1) d) = true.

(** One invocation of [process_record] writes exactly one outcome document
    and performs exactly one ledger update: it returns, its driver calls are
    the insert of the outcome and the update of the ledger, the sink gains
    that one document, the ledger is the old one with the entry of [i] marked,
    and no other collection changes. *)
Definition one_outcome_one_update (self : OxomoHarvester.t)
    (client : Client) (i : value) (db c : string) (st : mongo) : Prop :=
  let sink := fst (record_outcome client i c) in
  let d := snd (record_outcome client i c) in
  let ledger := (OxomoHarvester.mongo_db self, c +:+ "_records_checkpoint") in
  let run := OxomoHarvester.process_record self client i db c st in
  fst (fst run) = Ok () /\
  store_ops (snd run) =
    [OpInsertOne db sink d;
     mark_record_done (OxomoHarvester.mongo_db self) c i] /\
  docs_of (snd (fst run)) db sink = docs_of st db sink ++ [store_form i d] /\
  colls (snd (fst run)) !! ledger =
    update_first [("_id", i)] [("status", VInt 1)] <$> colls st !! ledger /\
  forall k, k <> (db, sink) -> k <> ledger ->
            colls (snd (fst run)) !! k = colls st !! k.

(** One invocation of [process_record] writes exactly one outcome document
    and performs exactly one ledger-done transition for [i]: besides the
    above, the entry of [i] in the record ledger of the harvester's database
    went from pending to done. *)
Definition one_outcome_one_transition (self : OxomoHarvester.t)
    (client : Client) (i : value) (db c : string) (st : mongo) : Prop :=
  let run := OxomoHarvester.process_record self client i db c st in
  one_outcome_one_update self client i db c st /\
  one_transition i
    (records_ledger st (OxomoHarvester.mongo_db self) c)
    (records_ledger (snd (fst run)) (OxomoHarvester.mongo_db self) c).

(** ** The scenario of the specification *)

Definition demo_identity : Identify := {|
  repositoryName := VStr "Repositorio";
  adminEmails := VList [VStr "admin@example.org"];
  baseURL := VStr "http://repo/oai";
  protocolVersion := VStr "2.0";
  earliestDatestamp := VStr "2001-01-01";
  granularity := VStr "YYYY-MM-DD"
|}.

(** The endpoint lists the records A, B, C and the set s1 with members A and
    B; A is a live record with metadata [md], B is deleted, C raises [e]. *)
Definition scenario_client (md : doc) (e : exn) : Client := {|
  client_url := "http://repo/oai";
  remote_identify := Ok demo_identity;
  remote_listIdentifiers := fun set_ =>
    match set_ with
    | None => Ok (LazySeq ["A"; "B"; "C"] None)
    | Some _ => Ok (LazySeq ["A"; "B"] None)
    end;
  remote_listSets := Ok (LazySeq [("s1", "Set One")] None);
  remote_getRecord := fun i =>
    if value_eqb i (VStr "A")
    then Ok ({| isDeleted := false |}, {| getMap := md |})
    else if value_eqb i (VStr "B")
         then Ok ({| isDeleted := true |}, {| getMap := [] |})
         else Raise e
|}.

Definition demo_md : doc := [("title", VList [VStr "Tesis"])].
Definition demo_exn : exn := Exn "oaipmh.error.IdDoesNotExistError" "C".
Definition demo_client : Client := scenario_client demo_md demo_exn.

Definition demo_harvester : OxomoHarvester.t :=
  {| OxomoHarvester.endpoints := [("http://repo/oai", "udea")];
     OxomoHarvester.mongo_db := "dspace" |}.

(** The scenario runs with one job, on a host with one CPU. *)
Definition demo_host : Host :=
  {| cpu_count := Some 1%Z;
     Parallel := fun _ => in_order;
     Parallel_one_job := fun _ => eq_refl |}.

Definition ledger_entry (i : string) (status : Z) : doc :=
  [("_id", VStr i); ("status", VInt status)].

Definition set_entry (i name : string) (status : Z) : doc :=
  [("_id", VStr i); ("name", VStr name); ("status", VInt status)].

(** The checkpoint of the scenario: A, B, C and s1, all pending. *)
Definition demo_checkpoint (n : nat) : mongo :=
  Mongo (<[("dspace", "udea_records_checkpoint") :=
             [ledger_entry "A" 0; ledger_entry "B" 0; ledger_entry "C" 0]]>
         (<[("dspace", "udea_sets_checkpoint") :=
             [set_entry "s1" "Set One" 0]]> ∅)) n.

(** The same checkpoint, recreated after A had been harvested: the record
    sink still holds the document of A. *)
Definition demo_recreated : mongo :=
  Mongo (<[("dspace", "udea_records") := [("_id", VStr "A") :: demo_md]]>
           (colls (demo_checkpoint 1))) 1.

Definition set_record (sid name : value) (members : list string) : doc :=
  [("_id", sid); ("name", name); ("records", VList (map VStr members))].

Definition set_error_prints (identifier : doc) (e : exn) : list event :=
  [EvPrint [VStr "=== ERROR ==="]; EvPrint [VStr (exn_msg e)];
   EvPrint [VDoc identifier]].

(** A client whose listing of the members of a set starts, yields A, and
    then fails while it is iterated. *)
Definition timeout_exn : exn := Exn "urllib.error.URLError" "timed out".

Definition flaky_client : Client := {|
  client_url := "http://repo/oai";
  remote_identify := Ok demo_identity;
  remote_listIdentifiers := fun set_ =>
    match set_ with
    | None => Ok (LazySeq ["A"; "B"; "C"] None)
    | Some _ => Ok (LazySeq ["A"] (Some timeout_exn))
    end;
  remote_listSets := Ok (LazySeq [("s1", "Set One")] None);
  remote_getRecord := fun _ => Raise timeout_exn
|}.


(** A computation never takes a done entry back: whatever collection holds
    a done entry with some [_id] before it still holds one after it. *)
Definition keeps_done {A} (m : M A) : Prop :=
  forall st db c i, done_in st db c i -> done_in (snd (fst (m st))) db c i.

(** The driver calls that neither drop a collection nor set anything but
    [status] to 1. *)
Definition marks_only (o : store_op) : Prop :=
  match o with
  | OpDrop _ _ => False
  | OpUpdateOne _ _ _ upd => upd = [("status", VInt 1)]
  | _ => True
  end.

(** What marking the entry [i] of the ledger [coll] of [db] done amounts to:
    the call returns; when no entry has this [_id] the store is unchanged;
    otherwise the first entry with this [_id] gets [status] 1, every other
    entry of the ledger stays as it is, and an entry that was already done
    leaves the store unchanged; no other collection changes. *)
Definition marks_at_most_one (m : M unit) (db coll : string) (i : value)
    (st : mongo) : Prop :=
  let st' := snd (fst (m st)) in
  fst (fst (m st)) = Ok () /\
  (Forall (fun d => has_id i d = false) (docs_of st db coll) -> st' = st) /\
  (forall pre d post,
      docs_of st db coll = pre ++ d :: post ->
      Forall (fun x => has_id i x = false) pre -> has_id i d = true ->
      docs_of st' db coll = pre ++ dict_set "status" (VInt 1) d :: post /\
      (done d = true -> st' = st)) /\
  (forall k, k <> (db, coll) -> colls st' !! k = colls st !! k).

(** The collection [c] of [db] exists. *)
Definition has_collection (st : mongo) (db c : string) : bool :=
  match colls st !! (db, c) with
  | Some _ => true
  | None => false
  end.

(** Both ledgers of the checkpoint of [c] exist in [db]. *)
Definition checkpoint_exists (st : mongo) (db c : string) : bool :=
  has_collection st db (c +:+ "_records_checkpoint")
  && has_collection st db (c +:+ "_sets_checkpoint").

(** The number of jobs [run] settles on before its loop. *)
Definition settled_jobs (host : Host) (jobs : option Z) : option Z :=
  match jobs with
  | None => cpu_count host
  | Some n => Some n
  end.

(** What [run] prints and asks the driver for an endpoint it skips. *)
Definition skip_events (db url c : string) : list event :=
  [EvPrint [VStr "=== Processing "; VStr c; VStr " from "; VStr url; VStr " "];
   EvStore (OpListCollectionNames db);
   EvPrint [VStr "*** Error: checkpoint for "; VStr url;
            VStr " not found, create it first with ..."];
   EvPrint [VStr "*** Omitting "; VStr url; VStr " "; VStr c]].

(** The same checkpoint after A alone was marked done. *)
Definition demo_resumed : mongo :=
  Mongo (<[("dspace", "udea_records_checkpoint") :=
             [ledger_entry "A" 1; ledger_entry "B" 0; ledger_entry "C" 0]]>
         (<[("dspace", "udea_sets_checkpoint") :=
             [set_entry "s1" "Set One" 0]]> ∅)) 0.

(** ** Creating and dropping the checkpoint *)

(** The identity snapshot [create] builds from the answer of [identify]. *)
Definition identity_info (idn : Identify) : doc :=
  [("repository_name", repositoryName idn);
   ("admin_emails", adminEmails idn);
   ("base_url", baseURL idn);
   ("protocol_version", protocolVersion idn);
   ("earliest_datestamp", earliestDatestamp idn);
   ("granularity", granularity idn)].

(** The store without the collection [c] of [db]. *)
Definition drop_coll (db c : string) (st : mongo) : mongo :=
  Mongo (delete (db, c) (colls st)) (next_oid st).

(** The store with the identity collection of [c] replaced by the snapshot
    of [idn]. *)
Definition with_identity (db c : string) (idn : Identify) (st : mongo) : mongo :=
  Mongo (<[(db, c +:+ "_identity") :=
             [store_form (VOid (next_oid st)) (identity_info idn)]]> (colls st))
        (S (next_oid st)).

Definition record_entries (ids : list string) : list doc :=
  map (fun i => ledger_entry i 0) ids.

Definition set_entries (sets : list (string * string)) : list doc :=
  map (fun s => set_entry (fst s) (snd s) 0) sets.

(** The events of [create] up to and including the replacement of the
    identity snapshot, the listing of the identifiers, the replacement of
    the record ledger and the listing of the sets. *)
Definition create_identity_events (url db c : string) (idn : Identify)
  : list event :=
  [EvIdentify url; EvStore (OpDrop db (c +:+ "_identity"));
   EvStore (OpInsertOne db (c +:+ "_identity") (identity_info idn))].

Definition create_listing_events (url base_url c : string) : list event :=
  [EvListIdentifiers url None;
   EvPrint [VStr "=== Getting Records ids from "; VStr base_url;
            VStr "  for "; VStr c]].

Definition create_records_events (db c : string) (ids : list string)
  : list event :=
  [EvStore (OpDrop db (c +:+ "_records_checkpoint"));
   EvStore (OpInsertMany db (c +:+ "_records_checkpoint") (record_entries ids))].

Definition create_sets_listing_events (url base_url c : string)
    (ids : list string) : list event :=
  [EvPrint [VStr "=== Records CheckPoint total records found = ";
            VInt (Z.of_nat (length (record_entries ids)))];
   EvListSets url].

Definition create_sets_print (base_url c : string) : event :=
  EvPrint [VStr "=== Getting Sets ids from "; VStr base_url;
           VStr "  for "; VStr c].

Definition create_sets_events (db c : string) (sets : list (string * string))
  : list event :=
  [EvStore (OpDrop db (c +:+ "_sets_checkpoint"));
   EvStore (OpInsertMany db (c +:+ "_sets_checkpoint") (set_entries sets))].

(** The [_id]s of a list of documents. *)
Definition ids_of (ds : list doc) : list (option value) :=
  map (dict_get "_id") ds.

(** A document as the server stores it: [_id] first, and only once. *)
Definition stored (d : doc) : Prop :=
  exists v, dict_get "_id" d = Some v /\ store_form v d = d.

(** A listing fails with [e]: the call raises it, or the sequence raises it
    while it is iterated. *)
Definition listing_fails {A} (r : result (lazy_seq A)) (e : exn) : Prop :=
  r = Raise e \/ exists s, r = Ok s /\ failure s = Some e.

(** The store with the record ledger of [c] replaced by the entries of
    [ids], all pending. *)
Definition with_records (db c : string) (ids : list string) (st : mongo)
  : mongo :=
  Mongo (<[(db, c +:+ "_records_checkpoint") := record_entries ids]> (colls st))
        (next_oid st).

Definition with_sets (db c : string) (sets : list (string * string))
    (st : mongo) : mongo :=
  Mongo (<[(db, c +:+ "_sets_checkpoint") := set_entries sets]> (colls st))
        (next_oid st).

(** The store a successful [create] leaves: identity snapshot and both
    ledgers replaced, whatever they held. *)
Definition created (db c : string) (idn : Identify) (ids : list string)
    (sets : list (string * string)) (st : mongo) : mongo :=
  with_sets db c sets (with_records db c ids (with_identity db c idn st)).

(** A client that answers [identify] and then lists no record at all. *)
Definition empty_client : Client := {|
  client_url := "http://repo/oai";
  remote_identify := Ok demo_identity;
  remote_listIdentifiers := fun _ => Ok (LazySeq [] None);
  remote_listSets := Ok (LazySeq [("s1", "Set One")] None);
  remote_getRecord := fun _ => Raise timeout_exn
|}.

(** A client whose listing of the record identifiers cannot be started. *)
Definition unlisted_client : Client := {|
  client_url := "http://repo/oai";
  remote_identify := Ok demo_identity;
  remote_listIdentifiers := fun _ => Raise timeout_exn;
  remote_listSets := Ok (LazySeq [("s1", "Set One")] None);
  remote_getRecord := fun _ => Raise timeout_exn
|}.

(** The ledger after the entry of [i] was marked, and after those of [ids]
    were, one after the other. *)
Definition mark (i : value) (ledger : list doc) : list doc :=
  update_first [("_id", i)] [("status", VInt 1)] ledger.

Definition marks (ids : list value) (ledger : list doc) : list doc :=
  fold_left (fun l i => mark i l) ids ledger.

(** What a pass of [run] over a checkpoint with nothing pending prints and
    asks the driver. *)
Definition idle_events (db url c : string) : list event :=
  [EvPrint [VStr "=== Processing "; VStr c; VStr " from "; VStr url; VStr " "];
   EvStore (OpListCollectionNames db);
   EvStore (OpFind db (c +:+ "_records_checkpoint") [("status", VInt 0)]
              ["status"]);
   EvStore (OpFind db (c +:+ "_sets_checkpoint") [("status", VInt 0)]
              ["status"])].

(** The checkpoint of the scenario once everything was harvested. *)
Definition demo_finished : mongo :=
  Mongo (<[("dspace", "udea_records_checkpoint") :=
             [ledger_entry "A" 1; ledger_entry "B" 1; ledger_entry "C" 1]]>
         (<[("dspace", "udea_sets_checkpoint") :=
             [set_entry "s1" "Set One" 1]]> ∅)) 0.

(** The ledgers of a checkpoint whose entries are all done. *)
Definition done_record_entries (ids : list string) : list doc :=
  map (fun i => ledger_entry i 1) ids.

Definition done_set_entries (sets : list (string * string)) : list doc :=
  map (fun s => set_entry (fst s) (snd s) 1) sets.

(** A client whose listing names the identifier A twice. *)
Definition repeating_client : Client := {|
  client_url := "http://repo/oai";
  remote_identify := Ok demo_identity;
  remote_listIdentifiers := fun _ => Ok (LazySeq ["A"; "B"; "A"; "C"] None);
  remote_listSets := Ok (LazySeq [("s1", "Set One")] None);
  remote_getRecord := fun _ => Raise timeout_exn
|}.

(** A set item as [find] cannot return it: no [_id]. *)
Definition nameless_item : doc := [("name", VStr "Set One")].

(** ** Re-processing and the two databases *)

(** The checkpoint of the scenario without an entry for A. *)
Definition demo_unlisted : mongo :=
  Mongo (<[("dspace", "udea_records_checkpoint") :=
             [ledger_entry "B" 0; ledger_entry "C" 0]]>
         (<[("dspace", "udea_sets_checkpoint") :=
             [set_entry "s1" "Set One" 0]]> ∅)) 0.




(** * Properties *)

(** ** Values, documents and names *)

Lemma value_eqb_eq (a b : value) : value_eqb a b = true <-> a = b.
Proof.
  revert b. induction a as [z|s|n|l IH|d IH] using value_nested_ind;
    intros [z'|s'|n'|l'|d']; simpl; try (split; [discriminate|congruence]).
  - rewrite Z.eqb_eq. split; congruence.
  - rewrite String.eqb_eq. split; congruence.
  - rewrite Nat.eqb_eq. split; congruence.
  - revert l'. induction IH as [|x l Hx _ IHl]; intros [|y l'];
      try (split; [discriminate|congruence]); [split; reflexivity|].
    rewrite andb_true_iff, Hx, IHl.
    split; [intros [-> H]; congruence | intros H; split; congruence].
  - revert d'. induction IH as [|[k x] d Hx _ IHd]; intros [|[k' y] d'];
      try (split; [discriminate|congruence]); [split; reflexivity|].
    rewrite !andb_true_iff, String.eqb_eq, (Hx y), IHd. simpl.
    split; [intros [[-> ->] H]; congruence
           | intros H; repeat split; congruence].
Qed.

Lemma value_eqb_refl (a : value) : value_eqb a a = true.
Proof. by apply value_eqb_eq. Qed.

Lemma dict_get_set_eq k v d : dict_get k (dict_set k v d) = Some v.
Proof.
  induction d as [|[k' v'] d IH]; simpl.
  - by rewrite String.eqb_refl.
  - destruct (String.eqb k' k) eqn:E; simpl.
    + by rewrite String.eqb_refl.
    + by rewrite E.
Qed.

Lemma dict_get_set_ne k k' v d :
  k <> k' -> dict_get k' (dict_set k v d) = dict_get k' d.
Proof.
  intros Hne. induction d as [|[k0 v0] d IH]; simpl.
  - apply String.eqb_neq in Hne. by rewrite Hne.
  - destruct (String.eqb k0 k) eqn:E; simpl.
    + apply String.eqb_eq in E as ->.
      apply String.eqb_neq in Hne. by rewrite Hne.
    + by rewrite IH.
Qed.

Lemma dict_get_del_ne k k' d :
  k <> k' -> dict_get k' (dict_del k d) = dict_get k' d.
Proof.
  intros Hne. induction d as [|[k0 v0] d IH]; simpl; [done|].
  destruct (String.eqb k0 k) eqn:E; simpl.
  - apply String.eqb_eq in E as ->.
    apply String.eqb_neq in Hne. by rewrite Hne.
  - by rewrite IH.
Qed.

Lemma dict_set_id k v d : dict_get k d = Some v -> dict_set k v d = d.
Proof.
  induction d as [|[k' v'] d IH]; simpl; [discriminate|].
  destruct (String.eqb k' k) eqn:E.
  - apply String.eqb_eq in E as ->. congruence.
  - intros H. by rewrite IH.
Qed.

Lemma dict_del_set k v d : dict_del k (dict_set k v d) = dict_del k d.
Proof.
  induction d as [|[k' v'] d IH]; simpl.
  - by rewrite String.eqb_refl.
  - destruct (String.eqb k' k) eqn:E; simpl.
    + by rewrite String.eqb_refl.
    + by rewrite E, IH.
Qed.

Lemma append_inv_head (c a b : string) : c +:+ a = c +:+ b -> a = b.
Proof. induction c as [|x c IH]; simpl; [done|]. intros [= H]. auto. Qed.

Lemma key_ne (db db' c a b : string) :
  a <> b -> (db, c +:+ a) <> (db', c +:+ b).
Proof. intros Hne [= _ H]. by apply Hne, (append_inv_head c). Qed.

(** ** The driver *)

Ltac munfold :=
  cbv [mbind mret mthrow M_bind M_ret M_throw attempt emit perform print
       lift_result getitem insert_one update_one coll_drop insert_many find
       list_collection_names getRecord listIdentifiers listSets identify
       collect OxomoCheckPoint.update_record OxomoCheckPoint.update_set
       OxomoCheckPoint.get_records_regs OxomoCheckPoint.get_sets_regs].

Lemma server_insert_ok db c d v st :
  dict_get "_id" d = Some v ->
  existsb (has_id v) (docs_of st db c) = false ->
  server_insert db c d st =
  (Ok (), Mongo (<[(db, c) := docs_of st db c ++ [store_form v d]]> (colls st))
                (next_oid st)).
Proof. intros Hd Hf. unfold server_insert. by rewrite Hd, Hf. Qed.

Lemma server_insert_dup db c d v st :
  dict_get "_id" d = Some v ->
  existsb (has_id v) (docs_of st db c) = true ->
  server_insert db c d st = (Raise DuplicateKeyError, st).
Proof. intros Hd Hf. unfold server_insert. by rewrite Hd, Hf. Qed.

Lemma server_update_lookup db c flt upd st k :
  colls (server_update db c flt upd st) !! k =
  if decide (k = (db, c)) then update_first flt upd <$> colls st !! k
  else colls st !! k.
Proof.
  unfold server_update. case_decide as Hk.
  - subst k. destruct (colls st !! (db, c)) eqn:E; simpl.
    + by rewrite lookup_insert_eq.
    + by rewrite E.
  - destruct (colls st !! (db, c)) eqn:E; simpl; [|done].
    by rewrite lookup_insert_ne.
Qed.

(** ** process_record *)

Lemma record_outcome_id client i c :
  dict_get "_id" (snd (record_outcome client i c)) = Some i.
Proof.
  unfold record_outcome.
  destruct (remote_getRecord client i) as [[h md]|e]; simpl.
  - destruct (isDeleted h); simpl; [reflexivity|]. apply dict_get_set_eq.
  - reflexivity.
Qed.

Lemma record_outcome_sink client i c :
  exists sfx, fst (record_outcome client i c) = c +:+ sfx /\
              In sfx ["_errors"; "_deleted"; "_records"].
Proof.
  unfold record_outcome.
  destruct (remote_getRecord client i) as [[h md]|e]; simpl;
    [destruct (isDeleted h)|]; simpl;
    eexists; (split; [reflexivity|]); simpl; tauto.
Qed.

Lemma record_sink_ne_ledger client i c (db db' : string) :
  (db, fst (record_outcome client i c)) <> (db', c +:+ "_records_checkpoint").
Proof.
  destruct (record_outcome_sink client i c) as (sfx & -> & Hin).
  apply key_ne. simpl in Hin. intuition subst; discriminate.
Qed.

(** What one invocation of [process_record] does, step by step. *)
Lemma process_record_run self client i db c st :
  OxomoHarvester.process_record self client i db c st =
  let sink := fst (record_outcome client i c) in
  let d := snd (record_outcome client i c) in
  let fetch := EvGetRecord (client_url client) i in
  let upd := mark_record_done (OxomoHarvester.mongo_db self) c i in
  match server_insert db sink d st with
  | (Ok _, st1) =>
      (Ok (), snd (apply_op upd st1),
       fetch :: EvStore (OpInsertOne db sink d) :: EvStore upd
         :: record_prints client i)
  | (Raise e, st1) => (Raise e, st1, [fetch; EvStore (OpInsertOne db sink d)])
  end.
Proof.
  unfold OxomoHarvester.process_record, record_outcome, record_prints. munfold.
  destruct (remote_getRecord client i) as [[h md]|e]; simpl.
  - destruct (isDeleted h); simpl.
    + destruct (server_insert _ _ _ _) as [[[]|e] st1]; reflexivity.
    + destruct (server_insert _ _ _ _) as [[[]|e] st1]; reflexivity.
  - destruct (server_insert _ _ _ _) as [[[]|e'] st1]; reflexivity.
Qed.

Lemma store_ops_record_prints client i :
  store_ops (record_prints client i) = [].
Proof.
  unfold record_prints. destruct (remote_getRecord client i) as [[h md]|e];
    simpl; [destruct (isDeleted h)|]; reflexivity.
Qed.

(** On a sink that holds no document with the identifier of the record,
    one invocation of [process_record] writes exactly one outcome document
    and then performs exactly one ledger update for the identifier. *)
Lemma process_record_fresh_sink self client i db c st :
  existsb (has_id i) (docs_of st db (fst (record_outcome client i c))) = false ->
  one_outcome_one_update self client i db c st.
Proof.
  intros Hfresh. unfold one_outcome_one_update.
  rewrite process_record_run. cbv zeta.
  rewrite (server_insert_ok _ _ _ i) by (apply record_outcome_id || done).
  pose proof (record_sink_ne_ledger client i c db
                (OxomoHarvester.mongo_db self)) as Hne.
  cbn [fst snd apply_op mark_record_done store_ops omap list_omap].
  rewrite store_ops_record_prints.
  repeat split.
  - unfold docs_of. rewrite server_update_lookup.
    rewrite decide_False by done. cbn. by rewrite lookup_insert_eq.
  - rewrite server_update_lookup, decide_True by done. cbn.
    by rewrite lookup_insert_ne.
  - intros k Hk1 Hk2. rewrite server_update_lookup, decide_False by done.
    cbn. by rewrite lookup_insert_ne.
Qed.

(** ** process_set *)

(** What one invocation of [process_set] does, step by step. *)
Lemma process_set_run self client identifier db c st :
  OxomoHarvester.process_set self client identifier db c st =
  let errors := c +:+ "_errors" in
  match dict_get "_id" identifier with
  | None =>
      let e := KeyError "'_id'" in
      let d := error_record (VDoc identifier) "set" e in
      match server_insert db errors d st with
      | (Ok _, st1) => (Raise e, st1, [EvStore (OpInsertOne db errors d)])
      | (Raise e', st1) => (Raise e', st1, [EvStore (OpInsertOne db errors d)])
      end
  | Some sid =>
      let call := EvListIdentifiers (client_url client) (Some sid) in
      let upd := mark_set_done (OxomoHarvester.mongo_db self) c sid in
      match remote_listIdentifiers client (Some sid) with
      | Raise e =>
          let d := error_record (VDoc identifier) "set" e in
          match server_insert db errors d st with
          | (Ok _, st1) =>
              (Ok (), snd (apply_op upd st1),
               call :: EvStore (OpInsertOne db errors d) :: EvStore upd
                 :: set_error_prints identifier e)
          | (Raise e', st1) =>
              (Raise e', st1, [call; EvStore (OpInsertOne db errors d)])
          end
      | Ok record_ids =>
          match failure record_ids with
          | Some e => (Raise e, st, [call])
          | None =>
              match dict_get "name" identifier with
              | None => (Raise (KeyError "'name'"), st, [call])
              | Some name =>
                  let d := set_record sid name (items record_ids) in
                  match server_insert db (c +:+ "_sets") d st with
                  | (Ok _, st1) =>
                      (Ok (), snd (apply_op upd st1),
                       [call; EvStore (OpInsertOne db (c +:+ "_sets") d);
                        EvStore upd])
                  | (Raise e', st1) =>
                      (Raise e', st1,
                       [call; EvStore (OpInsertOne db (c +:+ "_sets") d)])
                  end
              end
          end
      end
  end.
Proof.
  unfold OxomoHarvester.process_set, set_error_prints, set_record. munfold.
  destruct (dict_get "_id" identifier) as [sid|] eqn:Hid; simpl.
  - destruct (remote_listIdentifiers client (Some sid)) as [s|e]; simpl.
    + destruct (failure s) as [e|]; simpl; [reflexivity|].
      destruct (dict_get "name" identifier) as [name|]; simpl; [|reflexivity].
      destruct (server_insert _ _ _ _) as [[[]|e'] st1]; reflexivity.
    + destruct (server_insert _ _ _ _) as [[[]|e'] st1]; reflexivity.
  - destruct (server_insert _ _ _ _) as [[[]|e'] st1]; reflexivity.
Qed.

(** C2: the listing of the members of s1 fails while it is iterated. The
    [try] of [process_set] covers only the call that starts the listing, so
    the failure leaves [process_set]: no error record is written and the
    ledger entry of s1 stays pending. *)
Theorem process_set_iteration_failure_escapes :
  OxomoHarvester.process_set demo_harvester flaky_client
    [("_id", VStr "s1"); ("name", VStr "Set One")] "dspace" "udea"
    (demo_checkpoint 0) =
  (Raise timeout_exn, demo_checkpoint 0,
   [EvListIdentifiers "http://repo/oai" (Some (VStr "s1"))]).
Proof. vm_compute. reflexivity. Qed.

(** The sibling path: a failure of the call itself is recorded. *)
Lemma process_set_call_failure_recorded self client identifier sid e db c st :
  dict_get "_id" identifier = Some sid ->
  remote_listIdentifiers client (Some sid) = Raise e ->
  existsb (has_id (VDoc identifier)) (docs_of st db (c +:+ "_errors")) = false ->
  let run := OxomoHarvester.process_set self client identifier db c st in
  fst (fst run) = Ok () /\
  store_ops (snd run) =
    [OpInsertOne db (c +:+ "_errors") (error_record (VDoc identifier) "set" e);
     mark_set_done (OxomoHarvester.mongo_db self) c sid] /\
  docs_of (snd (fst run)) db (c +:+ "_errors") =
    docs_of st db (c +:+ "_errors") ++ [error_record (VDoc identifier) "set" e].
Proof.
  intros Hid Hcall Hfresh. cbv zeta. rewrite process_set_run. cbv zeta.
  rewrite Hid, Hcall.
  rewrite (server_insert_ok _ _ _ (VDoc identifier)) by done.
  cbn [fst snd apply_op mark_set_done store_ops omap list_omap
       set_error_prints].
  repeat split.
  unfold docs_of. rewrite server_update_lookup.
  rewrite decide_False by (apply key_ne; discriminate).
  cbn. by rewrite lookup_insert_eq.
Qed.

(** ** Interruption *)

Lemma server_insert_cases db c d st :
  (exists e, server_insert db c d st = (Raise e, st)) \/
  (exists v n, server_insert db c d st =
     (Ok (), Mongo (<[(db, c) := docs_of st db c ++ [store_form v d]]> (colls st)) n)).
Proof.
  unfold server_insert. destruct (dict_get "_id" d) as [v|]; [|eauto].
  destruct (existsb _ _); eauto.
Qed.

Lemma server_insert_other db c d st k :
  k <> (db, c) ->
  colls (snd (server_insert db c d st)) !! k = colls st !! k.
Proof.
  intros Hk. destruct (server_insert_cases db c d st) as [[e ->]|(v & n & ->)];
    simpl; [done|]. by rewrite lookup_insert_ne.
Qed.

Lemma apply_insert_snd db c d st :
  snd (apply_op (OpInsertOne db c d) st) = snd (server_insert db c d st).
Proof. simpl. by destruct (server_insert db c d st) as [[[]|e] st1]. Qed.






(** ** Databases *)



Lemma insert_update_frame db sink d ldb ledger flt upd st k :
  k <> (db, sink) -> k <> (ldb, ledger) ->
  colls (server_update ldb ledger flt upd (snd (server_insert db sink d st)))
    !! k = colls st !! k.
Proof.
  intros H1 H2. rewrite server_update_lookup, decide_False by done.
  by apply server_insert_other.
Qed.

(** Outside the sink of the outcome and the ledger of the harvester's
    database, [process_record] changes nothing. *)
Lemma process_record_frame self client i db c st k :
  k <> (db, fst (record_outcome client i c)) ->
  k <> (OxomoHarvester.mongo_db self, c +:+ "_records_checkpoint") ->
  colls (snd (fst (OxomoHarvester.process_record self client i db c st))) !! k =
  colls st !! k.
Proof.
  intros H1 H2. rewrite process_record_run. cbv zeta.
  pose proof (insert_update_frame db (fst (record_outcome client i c))
                (snd (record_outcome client i c))
                (OxomoHarvester.mongo_db self) (c +:+ "_records_checkpoint")
                [("_id", i)] [("status", VInt 1)] st k H1 H2) as Hf.
  pose proof (server_insert_other db (fst (record_outcome client i c))
                (snd (record_outcome client i c)) st k H1) as Hi.
  destruct (server_insert _ _ _ _) as [[[]|e] st1]; simpl in *; done.
Qed.

Lemma process_set_frame self client identifier db c st k :
  k <> (db, c +:+ "_errors") -> k <> (db, c +:+ "_sets") ->
  k <> (OxomoHarvester.mongo_db self, c +:+ "_sets_checkpoint") ->
  colls (snd (fst (OxomoHarvester.process_set self client identifier db c st)))
    !! k = colls st !! k.
Proof.
  intros H1 H2 H3. rewrite process_set_run. cbv zeta.
  assert (Hins : forall sink d sid,
             k <> (db, sink) ->
             colls (snd (fst
               match server_insert db sink d st with
               | (Ok _, st1) =>
                   (Ok (), snd (apply_op
                      (mark_set_done (OxomoHarvester.mongo_db self) c sid) st1),
                    @nil event)
               | (Raise e', st1) => (Raise e', st1, [])
               end)) !! k = colls st !! k).
  { intros sink d sid Hk.
    pose proof (insert_update_frame db sink d (OxomoHarvester.mongo_db self)
                  (c +:+ "_sets_checkpoint") [("_id", sid)]
                  [("status", VInt 1)] st k Hk H3) as Hf.
    pose proof (server_insert_other db sink d st k Hk) as Hi.
    destruct (server_insert _ _ _ _) as [[[]|e] st1]; simpl in *; done. }
  destruct (dict_get "_id" identifier) as [sid|].
  - destruct (remote_listIdentifiers client (Some sid)) as [s|e].
    + destruct (failure s) as [e|]; [done|].
      destruct (dict_get "name" identifier) as [name|]; [|done].
      specialize (Hins (c +:+ "_sets") (set_record sid name (items s)) sid H2).
      destruct (server_insert _ _ _ _) as [[[]|e] st1]; exact Hins.
    + specialize (Hins (c +:+ "_errors")
                    (error_record (VDoc identifier) "set" e) sid H1).
      destruct (server_insert _ _ _ _) as [[[]|e'] st1]; exact Hins.
  - pose proof (server_insert_other db (c +:+ "_errors")
        (error_record (VDoc identifier) "set" (KeyError "'_id'")) st k H1) as Hi.
    destruct (server_insert _ _ _ _) as [[[]|e'] st1]; exact Hi.
Qed.


(** ** Done is terminal *)

Lemma matches_id i d : matches [("_id", i)] d = has_id i d.
Proof.
  unfold matches, has_id. simpl. destruct (dict_get "_id" d); [|done].
  by rewrite andb_true_r.
Qed.

Lemma done_status d : done d = true -> dict_get "status" d = Some (VInt 1).
Proof.
  unfold done. destruct (dict_get "status" d) as [v|]; [|done].
  intros H. apply value_eqb_eq in H. by subst.
Qed.

Lemma mark_done_id d : done d = true -> dict_set "status" (VInt 1) d = d.
Proof. intros H. by apply dict_set_id, done_status. Qed.

Lemma mark_keeps_id i d : has_id i (dict_set "status" (VInt 1) d) = has_id i d.
Proof. unfold has_id. by rewrite dict_get_set_ne. Qed.

Lemma mark_is_done d : done (dict_set "status" (VInt 1) d) = true.
Proof. unfold done. by rewrite dict_get_set_eq. Qed.

(** [update_one] touches the first matching document and no other. *)
Lemma update_first_spec flt upd ds :
  (Forall (fun d => matches flt d = false) ds /\ update_first flt upd ds = ds) \/
  (exists pre d post,
      ds = pre ++ d :: post /\
      Forall (fun x => matches flt x = false) pre /\ matches flt d = true /\
      update_first flt upd ds =
        pre ++ fold_left (fun acc kv => dict_set (fst kv) (snd kv) acc) upd d
            :: post).
Proof.
  induction ds as [|d ds IH]; simpl; [by left|].
  destruct (matches flt d) eqn:Hm.
  - right. exists [], d, ds. repeat split; done.
  - destruct IH as [[Hall Heq]|(pre & d' & post & -> & Hpre & Hd' & Heq)].
    + left. split; [by constructor|by rewrite Heq].
    + right. exists (d :: pre), d', post. rewrite Heq.
      repeat split; [by constructor|done].
Qed.

Lemma update_first_unique flt upd pre d post :
  Forall (fun x => matches flt x = false) pre -> matches flt d = true ->
  update_first flt upd (pre ++ d :: post) =
  pre ++ fold_left (fun acc kv => dict_set (fst kv) (snd kv) acc) upd d :: post.
Proof.
  induction 1 as [|x pre Hx _ IH]; intros Hd; simpl.
  - by rewrite Hd.
  - by rewrite Hx, IH.
Qed.

Lemma update_first_none flt upd ds :
  Forall (fun x => matches flt x = false) ds -> update_first flt upd ds = ds.
Proof.
  induction 1 as [|x ds Hx _ IH]; simpl; [done|]. by rewrite Hx, IH.
Qed.

Lemma update_first_keeps_done flt ds i d :
  In d ds -> has_id i d = true -> done d = true ->
  exists d', In d' (update_first flt [("status", VInt 1)] ds) /\
             has_id i d' = true /\ done d' = true.
Proof.
  intros Hin Hid Hdone. induction ds as [|x ds IH]; simpl in *; [done|].
  destruct (matches flt x).
  - destruct Hin as [->|Hin].
    + exists (dict_set "status" (VInt 1) d). split; [by left|].
      by rewrite mark_keeps_id, mark_is_done.
    + exists d. split; [by right|done].
  - destruct Hin as [->|Hin].
    + exists d. split; [by left|done].
    + destruct (IH Hin) as (d' & Hin' & H'). exists d'. split; [by right|done].
Qed.

Lemma server_insert_incl db c d st (db' c' : string) x :
  In x (docs_of st db' c') ->
  In x (docs_of (snd (server_insert db c d st)) db' c').
Proof.
  intros Hin.
  destruct (server_insert_cases db c d st) as [[e ->]|(v & n & ->)]; [done|].
  unfold docs_of in *. simpl. destruct (decide ((db', c') = (db, c))) as [[= -> ->]|Hne].
  - rewrite lookup_insert_eq. simpl. apply in_or_app. by left.
  - by rewrite lookup_insert_ne.
Qed.

Lemma server_insert_many_incl db c ds st (db' c' : string) x :
  In x (docs_of st db' c') ->
  In x (docs_of (snd (server_insert_many db c ds st)) db' c').
Proof.
  revert st. induction ds as [|d ds IH]; intros st Hin; simpl; [done|].
  pose proof (server_insert_incl db c d st db' c' x Hin) as H1.
  destruct (server_insert db c d st) as [[[]|e] st1]; simpl in *; [|done].
  by apply IH.
Qed.

Lemma apply_op_keeps_done o st db c i :
  marks_only o -> done_in st db c i -> done_in (snd (apply_op o st)) db c i.
Proof.
  intros Ho (d & Hin & Hid & Hdone).
  destruct o as [db' c'|db' c' x|db' c' xs|db' c' f u|db' c' f e|db'];
    simpl in Ho; try done.
  - exists d. split; [|done]. rewrite apply_insert_snd.
    by apply server_insert_incl.
  - exists d. split; [|done]. simpl. destruct xs as [|x xs]; [done|].
    pose proof (server_insert_many_incl db' c' (x :: xs) st db c d Hin) as H.
    by destruct (server_insert_many db' c' (x :: xs) st) as [[[]|e] st1].
  - subst u. cbn [apply_op snd]. unfold done_in, docs_of in *.
    rewrite server_update_lookup.
    case_decide as Hk; [|by exists d].
    injection Hk as -> ->.
    destruct (colls st !! (db', c')) as [cur|]; simpl in *; [|done].
    by apply (update_first_keeps_done f cur i d).
  - by exists d.
  - by exists d.
Qed.

Lemma keeps_done_ret {A} (a : A) : keeps_done (mret a).
Proof. by intros st db c i H. Qed.

Lemma keeps_done_throw {A} (e : exn) : keeps_done (mthrow e : M A).
Proof. by intros st db c i H. Qed.

Lemma keeps_done_emit ev : keeps_done (emit ev).
Proof. by intros st db c i H. Qed.

Lemma keeps_done_bind {A B} (m : M A) (f : A -> M B) :
  keeps_done m -> (forall a, keeps_done (f a)) -> keeps_done (m ≫= f).
Proof.
  intros Hm Hf st db c i H. specialize (Hm st db c i H).
  unfold mbind, M_bind. destruct (m st) as [[[a|e] st1] t1]; simpl in *; [|done].
  specialize (Hf a st1 db c i Hm).
  by destruct (f a st1) as [[r st2] t2].
Qed.

Lemma keeps_done_attempt {A} (m : M A) : keeps_done m -> keeps_done (attempt m).
Proof.
  intros Hm st db c i H. specialize (Hm st db c i H). unfold attempt.
  by destruct (m st) as [[r st1] t1].
Qed.

Lemma keeps_done_perform o : marks_only o -> keeps_done (perform o).
Proof.
  intros Ho st db c i H. unfold perform.
  pose proof (apply_op_keeps_done o st db c i Ho H) as H'.
  by destruct (apply_op o st) as [r st1].
Qed.

Lemma keeps_done_in_order tasks :
  Forall keeps_done tasks -> keeps_done (in_order tasks).
Proof.
  induction 1 as [|t tasks Ht _ IH]; simpl; [apply keeps_done_ret|].
  apply keeps_done_bind; [done|]. by intros _.
Qed.

Lemma keeps_done_getitem d k : keeps_done (getitem d k).
Proof.
  unfold getitem. destruct (dict_get k d);
    [apply keeps_done_ret|apply keeps_done_throw].
Qed.

Lemma keeps_done_lift_result {A} (r : result A) : keeps_done (lift_result r).
Proof. destruct r; [apply keeps_done_ret|apply keeps_done_throw]. Qed.

Ltac keeps_done_step :=
  first
    [ apply keeps_done_ret | apply keeps_done_throw | apply keeps_done_emit
    | apply keeps_done_getitem | apply keeps_done_lift_result
    | apply keeps_done_perform; simpl; done
    | apply keeps_done_attempt
    | apply keeps_done_bind; [|intros ?] ].

Lemma keeps_done_update_record db c keys :
  keeps_done (OxomoCheckPoint.update_record db c keys).
Proof.
  unfold OxomoCheckPoint.update_record, update_one. repeat keeps_done_step.
Qed.

Lemma keeps_done_update_set db c keys :
  keeps_done (OxomoCheckPoint.update_set db c keys).
Proof.
  unfold OxomoCheckPoint.update_set, update_one. repeat keeps_done_step.
Qed.

Lemma keeps_done_find db c flt excl : keeps_done (find db c flt excl).
Proof. unfold find. repeat keeps_done_step. Qed.

Lemma keeps_done_exists db c : keeps_done (OxomoCheckPoint.exists_ db c).
Proof.
  unfold OxomoCheckPoint.exists_, list_collection_names.
  repeat keeps_done_step.
Qed.

Lemma keeps_done_process_record self client i db c :
  keeps_done (OxomoHarvester.process_record self client i db c).
Proof.
  unfold OxomoHarvester.process_record, getRecord, print, insert_one.
  apply keeps_done_bind; [repeat keeps_done_step|].
  intros [[h md]|e]; [simpl; destruct (isDeleted h)|];
    repeat first [apply keeps_done_update_record | keeps_done_step].
Qed.

Lemma keeps_done_process_set self client identifier db c :
  keeps_done (OxomoHarvester.process_set self client identifier db c).
Proof.
  unfold OxomoHarvester.process_set, listIdentifiers, print, insert_one,
    collect.
  apply keeps_done_bind; [repeat keeps_done_step|].
  intros [s|e].
  - apply keeps_done_bind; [destruct (failure s); keeps_done_step|].
    intros records.
    repeat first [apply keeps_done_update_set | keeps_done_step].
  - repeat first [apply keeps_done_update_set | keeps_done_step].
Qed.

Lemma keeps_done_run remote host self :
  keeps_done (OxomoHarvester.run remote host self one_job).
Proof.
  unfold OxomoHarvester.run, one_job. cbv zeta iota. fold one_job.
  induction (OxomoHarvester.endpoints self)
    as [|ep eps IH]; cbn [OxomoHarvester.run_loop]; [apply keeps_done_ret|].
  apply keeps_done_bind; [|by intros _].
  unfold OxomoHarvester.run_endpoint, print.
  apply keeps_done_bind; [keeps_done_step|]. intros _.
  apply keeps_done_bind; [apply keeps_done_exists|]. intros [|].
  - apply keeps_done_bind; [apply keeps_done_find|]. intros record_ids.
    rewrite !Parallel_one_job. apply keeps_done_bind.
    + apply keeps_done_in_order, List.Forall_forall. intros t Ht.
      apply in_map_iff in Ht as (record & <- & _).
      apply keeps_done_bind; [apply keeps_done_getitem|]. intros i.
      apply keeps_done_process_record.
    + intros _. apply keeps_done_bind; [apply keeps_done_find|].
      intros set_ids. rewrite Parallel_one_job.
      apply keeps_done_in_order, List.Forall_forall. intros t Ht.
      apply in_map_iff in Ht as (set_id & <- & _).
      apply keeps_done_process_set.
  - repeat keeps_done_step.
Qed.

Lemma server_update_same db c flt upd st :
  update_first flt upd (docs_of st db c) = docs_of st db c ->
  server_update db c flt upd st = st.
Proof.
  unfold server_update, docs_of. destruct st as [m n]; simpl.
  destruct (m !! (db, c)) as [cur|] eqn:E; simpl; [|done].
  intros ->. by rewrite insert_id.
Qed.

Lemma server_update_docs db c flt upd st :
  docs_of (server_update db c flt upd st) db c =
  update_first flt upd (docs_of st db c).
Proof.
  unfold docs_of. rewrite server_update_lookup, decide_True by done.
  by destruct (colls st !! (db, c)).
Qed.

Lemma Forall_matches_id i (ds : list doc) :
  Forall (fun d => has_id i d = false) ds ->
  Forall (fun d => matches [("_id", i)] d = false) ds.
Proof.
  induction 1 as [|d ds Hd _ IH]; constructor; [by rewrite matches_id|done].
Qed.

Lemma update_one_marks db coll i st :
  marks_at_most_one (update_one db coll [("_id", i)] [("status", VInt 1)])
    db coll i st.
Proof.
  unfold marks_at_most_one, update_one. munfold. cbn [apply_op fst snd].
  split; [done|]. split; [|split].
  - intros Hnone. apply server_update_same, update_first_none.
    by apply Forall_matches_id.
  - intros pre d post Hds Hpre Hd.
    assert (Hupd : update_first [("_id", i)] [("status", VInt 1)]
                     (docs_of st db coll) =
                   pre ++ dict_set "status" (VInt 1) d :: post).
    { rewrite Hds. rewrite update_first_unique;
        [done|by apply Forall_matches_id|by rewrite matches_id]. }
    split; [by rewrite server_update_docs|].
    intros Hdone. apply server_update_same.
    by rewrite Hupd, mark_done_id.
  - intros k Hk. by rewrite server_update_lookup, decide_False.
Qed.

(** C7. [update_record] and [update_set] set [status] to done for at most
    the single entry with the given [_id] (the first one, were there
    several), change nothing when no entry has it, and leave the store as it
    is when that entry is already done. No operation of the checkpoint or of
    the harvester other than [create] and [drop] takes a done entry back:
    each of them ([run] with one job, where joblib takes the tasks in
    order) keeps every done entry of every collection done. *)
Theorem ledger_done_is_terminal :
  (forall db c i st,
     marks_at_most_one (OxomoCheckPoint.update_record db c [("_id", i)])
       db (c +:+ "_records_checkpoint") i st) /\
  (forall db c i st,
     marks_at_most_one (OxomoCheckPoint.update_set db c [("_id", i)])
       db (c +:+ "_sets_checkpoint") i st) /\
  (forall db c keys, keeps_done (OxomoCheckPoint.update_record db c keys)) /\
  (forall db c keys, keeps_done (OxomoCheckPoint.update_set db c keys)) /\
  (forall db c, keeps_done (OxomoCheckPoint.get_records_regs db c)) /\
  (forall db c, keeps_done (OxomoCheckPoint.get_sets_regs db c)) /\
  (forall db c, keeps_done (OxomoCheckPoint.exists_ db c)) /\
  (forall self client i db c,
     keeps_done (OxomoHarvester.process_record self client i db c)) /\
  (forall self client identifier db c,
     keeps_done (OxomoHarvester.process_set self client identifier db c)) /\
  (forall remote host self,
     keeps_done (OxomoHarvester.run remote host self one_job)).
Proof.
  split; [intros; apply update_one_marks|].
  split; [intros; apply update_one_marks|].
  repeat split.
  - intros. apply keeps_done_update_record.
  - intros. apply keeps_done_update_set.
  - intros. apply keeps_done_find.
  - intros. apply keeps_done_find.
  - intros. apply keeps_done_exists.
  - intros. apply keeps_done_process_record.
  - intros. apply keeps_done_process_set.
  - intros. apply keeps_done_run.
Qed.

(** ** exists and the skipped endpoint *)

Lemma server_names_spec db name st :
  existsb (String.eqb name) (server_names db st) = has_collection st db name.
Proof.
  unfold has_collection, server_names.
  destruct (colls st !! (db, name)) as [ds|] eqn:E.
  - apply existsb_exists. exists name. split; [|apply String.eqb_refl].
    apply list_elem_of_In, list_elem_of_omap. exists ((db, name), ds).
    split; [by apply elem_of_map_to_list|]. simpl. by rewrite String.eqb_refl.
  - apply not_true_is_false. intros H. apply existsb_exists in H as (x & Hx & Hn).
    apply String.eqb_eq in Hn as <-.
    apply list_elem_of_In, list_elem_of_omap in Hx as ([[db' c'] ds] & Hin & Hsome).
    simpl in Hsome. destruct (String.eqb db' db) eqn:Hdb; [|done].
    apply String.eqb_eq in Hdb as ->. injection Hsome as ->.
    apply elem_of_map_to_list in Hin. congruence.
Qed.

Lemma exists_run db c st :
  OxomoCheckPoint.exists_ db c st =
  (Ok (checkpoint_exists st db c), st, [EvStore (OpListCollectionNames db)]).
Proof.
  unfold OxomoCheckPoint.exists_, checkpoint_exists. munfold. simpl.
  by rewrite !server_names_spec.
Qed.

(** X2. For an endpoint whose checkpoint does not exist, [run] prints that
    the checkpoint must be created first, asks the driver for nothing but the
    list of collection names, leaves the store as it is, and goes on with the
    remaining endpoints from that same store. *)
Theorem missing_checkpoint_is_skipped remote host self jobs url c eps st :
  OxomoHarvester.endpoints self = (url, c) :: eps ->
  checkpoint_exists st (OxomoHarvester.mongo_db self) c = false ->
  OxomoHarvester.run remote host self jobs st =
  (let rest := OxomoHarvester.run_loop remote host self
                 (settled_jobs host jobs) eps st in
   (fst (fst rest), snd (fst rest),
    skip_events (OxomoHarvester.mongo_db self) url c ++ snd rest)) /\
  Forall (fun o => is_write o = false)
    (store_ops (skip_events (OxomoHarvester.mongo_db self) url c)).
Proof.
  intros Heps Hex. split; [|by repeat constructor].
  unfold OxomoHarvester.run. cbv zeta. rewrite Heps.
  fold (settled_jobs host jobs).
  cbn [OxomoHarvester.run_loop].
  unfold OxomoHarvester.run_endpoint at 1. cbn [fst snd].
  unfold mbind at 1, M_bind at 1.
  unfold mbind at 1, M_bind at 1. unfold print at 1, emit at 1.
  unfold mbind at 1, M_bind at 1. rewrite exists_run, Hex.
  unfold print, emit, mbind, M_bind. cbn [fst snd app].
  destruct (OxomoHarvester.run_loop remote host self _ eps st)
    as [[res st'] t].
  reflexivity.
Qed.

Lemma missing_checkpoint_is_skipped_witness :
  OxomoHarvester.endpoints demo_harvester = ("http://repo/oai", "udea") :: [] /\
  checkpoint_exists (Mongo ∅ 0) (OxomoHarvester.mongo_db demo_harvester) "udea"
    = false /\
  OxomoHarvester.run (fun _ => demo_client) demo_host demo_harvester None
    (Mongo ∅ 0) =
  (Ok (), Mongo ∅ 0, skip_events "dspace" "http://repo/oai" "udea").
Proof.
  split; [reflexivity|]. split; [reflexivity|].
  exact (proj1 (missing_checkpoint_is_skipped (fun _ => demo_client)
                  demo_host demo_harvester None "http://repo/oai" "udea" []
                  (Mongo ∅ 0) eq_refl eq_refl)).
Defined.

(** ** Pending entries *)

Lemma matches_pending d : matches [("status", VInt 0)] d = pending d.
Proof.
  unfold matches, pending. simpl. destruct (dict_get "status" d); [|done].
  by rewrite andb_true_r.
Qed.

Lemma done_not_pending d : done d = true -> pending d = false.
Proof. intros H. unfold pending. by rewrite (done_status d H). Qed.

Lemma find_pending_run db coll st :
  find db coll [("status", VInt 0)] ["status"] st =
  (Ok (map (dict_del "status")
         (filter (fun d => pending d = true) (docs_of st db coll))),
   st, [EvStore (OpFind db coll [("status", VInt 0)] ["status"])]).
Proof.
  unfold find. munfold. cbn [apply_op project fold_left].
  do 3 f_equal. f_equal.
  induction (docs_of st db coll) as [|d ds IH]; [done|].
  rewrite !filter_cons, matches_pending.
  destruct (decide (pending d = true)); by rewrite IH.
Qed.

Lemma fetched_app t1 t2 : fetched (t1 ++ t2) = fetched t1 ++ fetched t2.
Proof. unfold fetched. apply omap_app. Qed.

Lemma fetched_process_record self client i db c st :
  fetched (snd (OxomoHarvester.process_record self client i db c st)) = [i].
Proof.
  rewrite process_record_run. cbv zeta.
  assert (Hp : fetched (record_prints client i) = []).
  { unfold record_prints. destruct (remote_getRecord client i) as [[h md]|e];
      simpl; [destruct (isDeleted h)|]; reflexivity. }
  destruct (server_insert _ _ _ _) as [[[]|e] st1]; simpl; [|done].
  change (i :: fetched (record_prints client i) = [i]). by rewrite Hp.
Qed.

Lemma fetched_process_set self client identifier db c st :
  fetched (snd (OxomoHarvester.process_set self client identifier db c st)) = [].
Proof.
  rewrite process_set_run. cbv zeta.
  destruct (dict_get "_id" identifier) as [sid|].
  - destruct (remote_listIdentifiers client (Some sid)) as [s|e].
    + destruct (failure s) as [e|]; [done|].
      destruct (dict_get "name" identifier) as [name|]; [|done].
      by destruct (server_insert _ _ _ _) as [[[]|e] st1].
    + by destruct (server_insert _ _ _ _) as [[[]|e'] st1].
  - by destruct (server_insert _ _ _ _) as [[[]|e'] st1].
Qed.

Lemma bind_run {A B} (m : M A) (f : A -> M B) st :
  (m ≫= f) st =
  match m st with
  | (Ok a, st1, t1) =>
      match f a st1 with
      | (r, st2, t2) => (r, st2, t1 ++ t2)
      end
  | (Raise e, st1, t1) => (Raise e, st1, t1)
  end.
Proof. reflexivity. Qed.

Lemma getitem_run d k st :
  getitem d k st =
  match dict_get k d with
  | Some v => (Ok v, st, [])
  | None => (Raise (KeyError ("'" +:+ k +:+ "'")), st, [])
  end.
Proof. unfold getitem. by destruct (dict_get k d). Qed.

(** The record phase fetches the identifiers of the pending entries in
    order, stopping early only when a task raises. *)
Lemma in_order_records_fetched self client db c docs st r st' t :
  in_order (map (fun record =>
              id_ ← getitem record "_id";
              OxomoHarvester.process_record self client id_ db c) docs) st =
  (r, st', t) ->
  (map Some (fetched t)) `prefix_of` (map (dict_get "_id") docs) /\
  (r = Ok () -> map Some (fetched t) = map (dict_get "_id") docs).
Proof.
  revert st r st' t. induction docs as [|d docs IH]; intros st r st' t Hrun.
  - injection Hrun as <- <- <-. split; [apply prefix_nil|done].
  - cbn [map in_order] in Hrun. rewrite !bind_run in Hrun.
    rewrite getitem_run in Hrun.
    destruct (dict_get "_id" d) as [i|] eqn:Hi.
    + cbn [app] in Hrun.
      pose proof (fetched_process_record self client i db c st) as Hf.
      destruct (OxomoHarvester.process_record self client i db c st)
        as [[[[]|e] st1] t1]; cbn [snd] in Hf.
      * destruct (in_order _ st1) as [[r2 st2] t2] eqn:Hrest.
        injection Hrun as <- <- <-.
        destruct (IH _ _ _ _ Hrest) as [IH1 IH2].
        rewrite fetched_app, Hf. cbn [app map]. rewrite Hi.
        split; [by apply prefix_cons|]. intros Hr. f_equal. by apply IH2.
      * injection Hrun as <- <- <-. rewrite Hf. cbn [map]. rewrite Hi.
        split; [apply prefix_cons, prefix_nil|done].
    + injection Hrun as <- <- <-.
      split; [apply prefix_nil|done].
Qed.

Lemma in_order_sets_fetched self client db c docs st :
  fetched (snd (in_order (map (fun set_id =>
             OxomoHarvester.process_set self client set_id db c) docs) st)) = [].
Proof.
  revert st. induction docs as [|d docs IH]; intros st; [done|].
  cbn [map in_order]. unfold mbind, M_bind.
  pose proof (fetched_process_set self client d db c st) as Hf.
  destruct (OxomoHarvester.process_set self client d db c st)
    as [[[[]|e] st1] t1]; simpl in Hf; [|done].
  specialize (IH st1). destruct (in_order _ st1) as [[r st2] t2].
  simpl in *. by rewrite fetched_app, Hf, IH.
Qed.

Lemma print_run line st : print line st = (Ok (), st, [EvPrint line]).
Proof. reflexivity. Qed.

Lemma ids_of_projection (ds : list doc) :
  map (dict_get "_id") (map (dict_del "status") ds) = map (dict_get "_id") ds.
Proof.
  rewrite map_map. apply map_ext. intros d. by apply dict_get_del_ne.
Qed.

(** One endpoint of [run] whose checkpoint exists: when it returns, the
    records fetched are those of the entries pending at the start. *)
Lemma run_endpoint_fetched remote host self url c st st' t :
  checkpoint_exists st (OxomoHarvester.mongo_db self) c = true ->
  OxomoHarvester.run_endpoint remote host self one_job (url, c) st = (Ok (), st', t) ->
  map Some (fetched t) =
  map (dict_get "_id")
    (filter (fun d => pending d = true)
       (records_ledger st (OxomoHarvester.mongo_db self) c)).
Proof.
  intros Hex Hrun. unfold OxomoHarvester.run_endpoint in Hrun.
  cbn [fst snd] in Hrun.
  rewrite bind_run, print_run, bind_run, exists_run, Hex in Hrun.
  rewrite bind_run in Hrun.
  unfold OxomoCheckPoint.get_records_regs in Hrun at 1.
  rewrite find_pending_run in Hrun. rewrite bind_run in Hrun.
  fold (records_ledger st (OxomoHarvester.mongo_db self) c) in Hrun.
  rewrite Parallel_one_job in Hrun.
  destruct (in_order _ st) as [[r1 st1] t1] eqn:Hrec in Hrun.
  destruct r1 as [[]|e]; [|by destruct t1; discriminate].
  apply in_order_records_fetched in Hrec as [_ Hrec].
  specialize (Hrec eq_refl). rewrite ids_of_projection in Hrec.
  rewrite bind_run in Hrun.
  unfold OxomoCheckPoint.get_sets_regs in Hrun at 1.
  rewrite find_pending_run in Hrun.
  pose proof (in_order_sets_fetched self (remote url)
                (OxomoHarvester.mongo_db self) c
                (map (dict_del "status")
                   (filter (fun d => pending d = true)
                      (docs_of st1 (OxomoHarvester.mongo_db self)
                         (c +:+ "_sets_checkpoint")))) st1) as Hsets.
  rewrite Parallel_one_job in Hrun.
  destruct (in_order _ st1) as [[r2 st2] t2].
  injection Hrun as _ _ <-. cbn [snd] in Hsets.
  cbn [app].
  change (map Some (fetched (t1 ++ [EvStore
            (OpFind (OxomoHarvester.mongo_db self) (c +:+ "_sets_checkpoint")
               [("status", VInt 0)] ["status"])] ++ t2)) =
          map (dict_get "_id")
            (filter (fun d => pending d = true)
               (records_ledger st (OxomoHarvester.mongo_db self) c))).
  rewrite !fetched_app, Hsets. cbn [fetched omap list_omap app].
  by rewrite app_nil_r.
Qed.

(** X3. [get_records_regs] and [get_sets_regs] return exactly the entries
    of their ledger whose status is pending, in ledger order, each without
    its status (a record entry as its [_id], a set entry as its [_id] and
    name), and never a done entry. So a pass of [run] with one job, where
    joblib takes the tasks in order, over an endpoint whose checkpoint
    exists fetches, when it returns, exactly the records still pending, in
    ledger order. *)
Theorem pending_entries_are_processed remote host self url c st db :
  OxomoCheckPoint.get_records_regs db c st =
    (Ok (map (dict_del "status")
           (filter (fun d => pending d = true) (records_ledger st db c))),
     st,
     [EvStore (OpFind db (c +:+ "_records_checkpoint")
                 [("status", VInt 0)] ["status"])]) /\
  OxomoCheckPoint.get_sets_regs db c st =
    (Ok (map (dict_del "status")
           (filter (fun d => pending d = true) (sets_ledger st db c))),
     st,
     [EvStore (OpFind db (c +:+ "_sets_checkpoint")
                 [("status", VInt 0)] ["status"])]) /\
  (forall d, done d = true -> pending d = false) /\
  (forall i s, dict_del "status" (ledger_entry i s) = [("_id", VStr i)]) /\
  (forall i n s, dict_del "status" (set_entry i n s) =
                 [("_id", VStr i); ("name", VStr n)]) /\
  (checkpoint_exists st (OxomoHarvester.mongo_db self) c = true ->
   forall st' t,
     OxomoHarvester.run_endpoint remote host self one_job (url, c) st = (Ok (), st', t) ->
     map Some (fetched t) =
     map (dict_get "_id")
       (filter (fun d => pending d = true)
          (records_ledger st (OxomoHarvester.mongo_db self) c))).
Proof.
  split; [apply find_pending_run|]. split; [apply find_pending_run|].
  split; [apply done_not_pending|]. split; [done|]. split; [done|].
  intros Hex st' t. by apply run_endpoint_fetched.
Qed.

(** The resume scenario: A is done, B and C are pending; the restarted run
    fetches B and C and nothing else. *)
Lemma pending_entries_are_processed_witness :
  checkpoint_exists demo_resumed (OxomoHarvester.mongo_db demo_harvester)
    "udea" = true /\
  (exists st' t,
      OxomoHarvester.run_endpoint (fun _ => demo_client) demo_host
      demo_harvester one_job
        ("http://repo/oai", "udea") demo_resumed = (Ok (), st', t) /\
      map Some (fetched t) = [Some (VStr "B"); Some (VStr "C")]).
Proof.
  assert (Hex : checkpoint_exists demo_resumed
                  (OxomoHarvester.mongo_db demo_harvester) "udea" = true)
    by (vm_compute; reflexivity).
  split; [exact Hex|].
  assert (Hrun : exists st' t,
             OxomoHarvester.run_endpoint (fun _ => demo_client) demo_host
      demo_harvester one_job
               ("http://repo/oai", "udea") demo_resumed = (Ok (), st', t))
    by (eexists _, _; vm_compute; reflexivity).
  destruct Hrun as (st' & t & Hrun). exists st', t. split; [exact Hrun|].
  assert (Hpend : map (dict_get "_id")
            (filter (fun d => pending d = true)
               (records_ledger demo_resumed
                  (OxomoHarvester.mongo_db demo_harvester) "udea")) =
          [Some (VStr "B"); Some (VStr "C")]) by (vm_compute; reflexivity).
  rewrite <- Hpend.
  exact (proj2 (proj2 (proj2 (proj2 (proj2
      (pending_entries_are_processed (fun _ => demo_client) demo_host demo_harvester
         "http://repo/oai" "udea" demo_resumed "dspace"))))) Hex st' t Hrun).
Defined.

(** ** create *)

Lemma server_insert_identity db c idn st :
  server_insert db (c +:+ "_identity") (identity_info idn)
    (drop_coll db (c +:+ "_identity") st) =
  (Ok (), with_identity db c idn st).
Proof.
  unfold with_identity, drop_coll, server_insert, docs_of. cbn.
  by rewrite lookup_delete_eq, insert_delete_eq.
Qed.

Lemma collect_run {A B} (s : lazy_seq A) (f : A -> B) st :
  collect s f st =
  match failure s with
  | None => (Ok (map f (items s)), st, [])
  | Some e => (Raise e, st, [])
  end.
Proof. unfold collect. by destruct (failure s). Qed.

Lemma mret_run {A} (a : A) st : (mret a : M A) st = (Ok a, st, []).
Proof. reflexivity. Qed.

Lemma emit_run ev st : emit ev st = (Ok (), st, [ev]).
Proof. reflexivity. Qed.

Lemma lift_result_run {A} (r : result A) st : lift_result r st = (r, st, []).
Proof. by destruct r. Qed.

Lemma perform_drop_run db c st :
  perform (OpDrop db c) st = (Ok RUnit, drop_coll db c st, [EvStore (OpDrop db c)]).
Proof. reflexivity. Qed.

Lemma perform_insert_many_run db c ds st :
  perform (OpInsertMany db c ds) st =
  (fst (apply_op (OpInsertMany db c ds) st),
   snd (apply_op (OpInsertMany db c ds) st),
   [EvStore (OpInsertMany db c ds)]).
Proof. unfold perform. by destruct (apply_op _ st). Qed.

Lemma perform_identity_run db c idn st :
  perform (OpInsertOne db (c +:+ "_identity") (identity_info idn))
    (drop_coll db (c +:+ "_identity") st) =
  (Ok RUnit, with_identity db c idn st,
   [EvStore (OpInsertOne db (c +:+ "_identity") (identity_info idn))]).
Proof.
  unfold perform. cbn [apply_op]. by rewrite server_insert_identity.
Qed.

Ltac mrun :=
  repeat (rewrite ?bind_run, ?mret_run, ?emit_run, ?lift_result_run,
            ?perform_drop_run, ?perform_identity_run,
            ?perform_insert_many_run, ?collect_run;
          cbn beta iota).

(** What one invocation of [create] does, step by step. *)
Lemma create_run remote base_url db c st :
  OxomoCheckPoint.create remote base_url db c st =
  let client := remote base_url in
  let url := client_url client in
  match remote_identify client with
  | Raise e => (Raise e, st, [EvIdentify url])
  | Ok idn =>
      let st1 := with_identity db c idn st in
      let t1 := create_identity_events url db c idn in
      match remote_listIdentifiers client None with
      | Raise e => (Raise e, st1, t1 ++ [EvListIdentifiers url None])
      | Ok ids =>
          let t2 := t1 ++ create_listing_events url base_url c in
          match failure ids with
          | Some e => (Raise e, st1, t2)
          | None =>
              let st2 := drop_coll db (c +:+ "_records_checkpoint") st1 in
              let t3 := t2 ++ create_records_events db c (items ids) in
              match apply_op (OpInsertMany db (c +:+ "_records_checkpoint")
                                (record_entries (items ids))) st2 with
              | (Raise e, st3) => (Raise e, st3, t3)
              | (Ok _, st3) =>
                  let t4 := t3 ++ create_sets_listing_events url base_url c
                                    (items ids) in
                  match remote_listSets client with
                  | Raise e => (Raise e, st3, t4)
                  | Ok sets =>
                      let t5 := t4 ++ [create_sets_print base_url c] in
                      match failure sets with
                      | Some e => (Raise e, st3, t5)
                      | None =>
                          let st4 := drop_coll db (c +:+ "_sets_checkpoint") st3 in
                          let t6 := t5 ++ create_sets_events db c (items sets) in
                          match apply_op
                                  (OpInsertMany db (c +:+ "_sets_checkpoint")
                                     (set_entries (items sets))) st4 with
                          | (Raise e, st5) => (Raise e, st5, t6)
                          | (Ok _, st5) =>
                              (Ok (), st5,
                               t6 ++ [EvPrint
                                 [VStr "=== Sets CheckPoint total sets found = ";
                                  VInt (Z.of_nat
                                          (length (set_entries (items sets))))]])
                          end
                      end
                  end
              end
          end
      end
  end.
Proof.
  unfold OxomoCheckPoint.create. cbv zeta.
  unfold identify, listIdentifiers, listSets, coll_drop, insert_one,
    insert_many, print.
  rewrite bind_run, bind_run, emit_run. cbn beta iota.
  rewrite lift_result_run.
  destruct (remote_identify (remote base_url)) as [idn|e]; [|reflexivity].
  cbn beta iota.
  change (dict_set "granularity" _ _) with (identity_info idn).
  mrun.
  destruct (remote_listIdentifiers (remote base_url) None) as [ids|e];
    [|reflexivity].
  mrun. destruct (failure ids) as [e|]; [reflexivity|]. mrun.
  change (map _ (items ids)) with (record_entries (items ids)).
  destruct (apply_op (OpInsertMany db (c +:+ "_records_checkpoint")
              (record_entries (items ids))) _) as [[r|e] st3];
    cbn [fst snd]; [|reflexivity].
  mrun.
  destruct (remote_listSets (remote base_url)) as [sets|e]; [|reflexivity].
  mrun. destruct (failure sets) as [e|]; [reflexivity|]. mrun.
  change (map _ (items sets)) with (set_entries (items sets)).
  destruct (apply_op (OpInsertMany db (c +:+ "_sets_checkpoint")
              (set_entries (items sets))) _) as [[r'|e] st5];
    cbn [fst snd]; reflexivity.
Qed.

(** ** Bulk insert *)

Lemma has_id_stored v w d :
  dict_get "_id" d = Some w -> has_id v d = value_eqb w v.
Proof. unfold has_id. by intros ->. Qed.

Lemma existsb_has_id v (ds : list doc) :
  existsb (has_id v) ds = false <-> ~ In (Some v) (ids_of ds).
Proof.
  unfold ids_of. induction ds as [|d ds IH]; simpl; [tauto|].
  rewrite orb_false_iff, IH. unfold has_id.
  destruct (dict_get "_id" d) as [w|] eqn:E.
  - split.
    + intros [Hw Hds] [[= ->]|Hin]; [|tauto].
      by rewrite value_eqb_refl in Hw.
    + intros Hn. split; [|tauto].
      apply not_true_is_false. intros Hw. apply value_eqb_eq in Hw as ->. tauto.
  - split; [intros [_ Hds] [?|?]; [done|tauto]|tauto].
Qed.

Lemma ids_of_app ds1 ds2 : ids_of (ds1 ++ ds2) = ids_of ds1 ++ ids_of ds2.
Proof. unfold ids_of. apply map_app. Qed.

(** An ordered bulk insert of stored documents succeeds exactly when their
    [_id]s are distinct and new to the collection; it then appends them in
    order and touches nothing else. *)
Lemma server_insert_many_ok db c ds st :
  Forall stored ds ->
  NoDup (ids_of (docs_of st db c) ++ ids_of ds) \/
  (NoDup (ids_of ds) /\
   forall v, In v (ids_of ds) -> ~ In v (ids_of (docs_of st db c))) ->
  server_insert_many db c ds st =
  (Ok (), match ds with
          | [] => st
          | _ => Mongo (<[(db, c) := docs_of st db c ++ ds]> (colls st))
                       (next_oid st)
          end).
Proof.
  intros Hst Hnd.
  assert (Hnd' : NoDup (ids_of ds) /\
            forall v, In v (ids_of ds) -> ~ In v (ids_of (docs_of st db c))).
  { destruct Hnd as [Hnd|Hnd]; [|done].
    apply NoDup_app in Hnd as (_ & Hdisj & Hnd). split; [done|].
    intros v Hv Hin. apply (Hdisj v); by apply list_elem_of_In. }
  clear Hnd. destruct Hnd' as [Hnd Hfresh].
  revert st Hfresh. induction Hst as [|d ds (v & Hv & Hform) _ IH];
    intros st Hfresh; [done|].
  cbn [server_insert_many].
  apply NoDup_cons in Hnd as [Hd Hnd].
  assert (Hnew : existsb (has_id v) (docs_of st db c) = false).
  { apply existsb_has_id. apply Hfresh. simpl. left. by rewrite Hv. }
  rewrite (server_insert_ok _ _ _ v) by done. rewrite Hform.
  rewrite IH; [|done|].
  - f_equal. destruct ds as [|d' ds']; [done|].
    unfold docs_of. cbn [colls next_oid]. rewrite lookup_insert_eq. cbn.
    by rewrite insert_insert_eq, <- app_assoc.
  - intros w Hw. unfold docs_of. cbn [colls]. rewrite lookup_insert_eq. cbn.
    fold (docs_of st db c). rewrite ids_of_app. intros Hin.
    apply in_app_or in Hin as [Hin|Hin].
    + apply (Hfresh w); [by right|done].
    + simpl in Hin. destruct Hin as [Hin|[]]. rewrite Hv in Hin. subst w.
      apply Hd. rewrite Hv. by apply list_elem_of_In.
Qed.

Lemma server_insert_many_ok_inv db c ds st st' :
  Forall stored ds ->
  server_insert_many db c ds st = (Ok (), st') ->
  NoDup (ids_of ds) /\
  forall v, In v (ids_of ds) -> ~ In v (ids_of (docs_of st db c)).
Proof.
  intros Hst. revert st. induction Hst as [|d ds (v & Hv & Hform) _ IH];
    intros st Hrun.
  - split; [constructor|by intros v []].
  - cbn [server_insert_many] in Hrun.
    destruct (existsb (has_id v) (docs_of st db c)) eqn:Hdup.
    + by rewrite (server_insert_dup _ _ _ v) in Hrun.
    + rewrite (server_insert_ok _ _ _ v) in Hrun by done.
      rewrite Hform in Hrun. apply IH in Hrun as [Hnd Hfresh].
      apply existsb_has_id in Hdup.
      assert (Hcur : forall w, In w (ids_of ds) ->
                ~ In w (ids_of (docs_of st db c)) /\ w <> Some v).
      { intros w Hw. specialize (Hfresh w Hw). unfold docs_of in Hfresh.
        cbn [colls] in Hfresh. rewrite lookup_insert_eq in Hfresh.
        cbn in Hfresh. fold (docs_of st db c) in Hfresh.
        rewrite ids_of_app in Hfresh. split.
        - intros Hin. apply Hfresh, in_or_app. by left.
        - intros ->. apply Hfresh, in_or_app. right. simpl. left.
          by rewrite Hv. }
      split.
      * simpl. rewrite Hv. apply NoDup_cons. split; [|done].
        intros Hin. apply list_elem_of_In in Hin. by destruct (Hcur _ Hin).
      * intros w [Hw|Hw]; [by rewrite <- Hw, Hv|]. by destruct (Hcur _ Hw).
Qed.

Lemma docs_of_drop_coll db c st : docs_of (drop_coll db c st) db c = [].
Proof. unfold docs_of, drop_coll. cbn [colls]. by rewrite lookup_delete_eq. Qed.

Lemma server_insert_many_result db c ds st :
  fst (server_insert_many db c ds st) = Ok () \/
  fst (server_insert_many db c ds st) = Raise BulkWriteError.
Proof.
  revert st. induction ds as [|d ds IH]; intros st; [by left|].
  cbn [server_insert_many].
  destruct (server_insert db c d st) as [[[]|e] st1]; [apply IH|by right].
Qed.

(** A bulk insert into a collection that was just dropped. *)
Lemma apply_insert_many_fresh db c ds st :
  ds <> [] -> Forall stored ds -> NoDup (ids_of ds) ->
  apply_op (OpInsertMany db c ds) (drop_coll db c st) =
  (Ok RUnit, Mongo (<[(db, c) := ds]> (colls st)) (next_oid st)).
Proof.
  intros Hne Hst Hnd. cbn [apply_op].
  rewrite server_insert_many_ok; [|done|].
  - destruct ds as [|d ds]; [done|]. rewrite docs_of_drop_coll.
    unfold drop_coll. cbn [colls next_oid app]. by rewrite insert_delete_eq.
  - right. split; [done|]. intros v _. rewrite docs_of_drop_coll. by intros [].
Qed.

Lemma apply_insert_many_fresh_inv db c ds st r st' :
  Forall stored ds ->
  apply_op (OpInsertMany db c ds) (drop_coll db c st) = (Ok r, st') ->
  ds <> [] /\ NoDup (ids_of ds) /\
  st' = Mongo (<[(db, c) := ds]> (colls st)) (next_oid st).
Proof.
  intros Hst Hrun. cbn [apply_op] in Hrun.
  destruct ds as [|d ds]; [done|].
  destruct (server_insert_many db c (d :: ds) (drop_coll db c st))
    as [[[]|e] st1] eqn:Hins; [|done].
  injection Hrun as _ <-.
  pose proof (server_insert_many_ok_inv _ _ _ _ _ Hst Hins) as [Hnd _].
  pose proof (apply_insert_many_fresh db c (d :: ds) st) as Hok.
  cbn [apply_op] in Hok. rewrite Hins in Hok.
  specialize (Hok ltac:(done) Hst Hnd). injection Hok as ->. done.
Qed.

Lemma apply_insert_many_raises db c ds st e st' :
  apply_op (OpInsertMany db c ds) st = (Raise e, st') ->
  (ds = [] /\ e = EmptyInsertError /\ st' = st) \/
  (ds <> [] /\ e = BulkWriteError).
Proof.
  cbn [apply_op]. destruct ds as [|d ds].
  - intros [= <- <-]. by left.
  - pose proof (server_insert_many_result db c (d :: ds) st) as Hres.
    destruct (server_insert_many db c (d :: ds) st) as [[[]|e'] st1];
      [done|]. intros [= <- <-]. right. split; [done|].
    by destruct Hres as [Hres|[= ->]].
Qed.

Lemma record_entries_stored ids : Forall stored (record_entries ids).
Proof.
  unfold record_entries. apply List.Forall_forall. intros d Hd.
  apply in_map_iff in Hd as (i & <- & _). by exists (VStr i).
Qed.

Lemma set_entries_stored sets : Forall stored (set_entries sets).
Proof.
  unfold set_entries. apply List.Forall_forall. intros d Hd.
  apply in_map_iff in Hd as (s & <- & _). by exists (VStr (fst s)).
Qed.

Lemma ids_of_record_entries ids :
  ids_of (record_entries ids) = map (fun i => Some (VStr i)) ids.
Proof. unfold ids_of, record_entries. by rewrite map_map. Qed.

Lemma ids_of_set_entries sets :
  ids_of (set_entries sets) = map (fun i => Some (VStr i)) (map fst sets).
Proof. unfold ids_of, set_entries. by rewrite !map_map. Qed.

Lemma NoDup_ids (ids : list string) :
  NoDup (map (fun i => Some (VStr i)) ids) <-> NoDup ids.
Proof.
  assert (Hinj : Inj eq eq (fun i : string => Some (VStr i)))
    by (by intros i j [= ->]).
  split; [apply NoDup_fmap_1|by apply NoDup_fmap_2].
Qed.

Lemma insert_records_fresh db c ids st :
  ids <> [] -> NoDup ids ->
  apply_op (OpInsertMany db (c +:+ "_records_checkpoint") (record_entries ids))
    (drop_coll db (c +:+ "_records_checkpoint") st) =
  (Ok RUnit, with_records db c ids st).
Proof.
  intros Hne Hnd. apply apply_insert_many_fresh.
  - by destruct ids.
  - apply record_entries_stored.
  - rewrite ids_of_record_entries. by apply NoDup_ids.
Qed.

Lemma insert_sets_fresh db c sets st :
  sets <> [] -> NoDup (map fst sets) ->
  apply_op (OpInsertMany db (c +:+ "_sets_checkpoint") (set_entries sets))
    (drop_coll db (c +:+ "_sets_checkpoint") st) =
  (Ok RUnit, with_sets db c sets st).
Proof.
  intros Hne Hnd. apply apply_insert_many_fresh.
  - by destruct sets.
  - apply set_entries_stored.
  - rewrite ids_of_set_entries. by apply NoDup_ids.
Qed.

Lemma checkpoint_exists_created db c idn ids sets st :
  checkpoint_exists (created db c idn ids sets st) db c = true.
Proof.
  unfold checkpoint_exists, has_collection, created, with_sets, with_records.
  cbn [colls]. rewrite lookup_insert_ne by (apply key_ne; discriminate).
  by rewrite !lookup_insert_eq.
Qed.

(** X5. [create] on listings that are not empty and name no identifier twice:
    it returns, and the identity snapshot and both ledgers are replaced by
    what the endpoint answered - every listed record and set once, pending,
    in listing order - whatever the checkpoint held before. The checkpoint
    then exists. *)
Theorem create_resets_checkpoint remote base_url db c st idn ids sets :
  remote_identify (remote base_url) = Ok idn ->
  remote_listIdentifiers (remote base_url) None = Ok (LazySeq ids None) ->
  remote_listSets (remote base_url) = Ok (LazySeq sets None) ->
  ids <> [] -> NoDup ids -> sets <> [] -> NoDup (map fst sets) ->
  fst (OxomoCheckPoint.create remote base_url db c st) =
    (Ok (), created db c idn ids sets st) /\
  records_ledger (created db c idn ids sets st) db c = record_entries ids /\
  sets_ledger (created db c idn ids sets st) db c = set_entries sets /\
  docs_of (created db c idn ids sets st) db (c +:+ "_identity") =
    [store_form (VOid (next_oid st)) (identity_info idn)] /\
  checkpoint_exists (created db c idn ids sets st) db c = true.
Proof.
  intros Hid Hids Hsets Hne1 Hnd1 Hne2 Hnd2.
  split; [|split; [|split; [|split]]].
  - rewrite create_run. cbv zeta. rewrite Hid, Hids, Hsets. cbn [failure items].
    rewrite insert_records_fresh by done.
    by rewrite insert_sets_fresh.
  - unfold records_ledger, docs_of, created, with_sets, with_records.
    cbn [colls]. rewrite lookup_insert_ne by (apply key_ne; discriminate).
    by rewrite lookup_insert_eq.
  - unfold sets_ledger, docs_of, created, with_sets. cbn [colls].
    by rewrite lookup_insert_eq.
  - unfold docs_of, created, with_sets, with_records, with_identity.
    cbn [colls].
    rewrite !lookup_insert_ne by (apply key_ne; discriminate).
    by rewrite lookup_insert_eq.
  - apply checkpoint_exists_created.
Qed.

Lemma create_resets_checkpoint_witness :
  fst (OxomoCheckPoint.create (fun _ => demo_client) "http://repo/oai"
         "dspace" "udea" demo_recreated) =
  (Ok (), created "dspace" "udea" demo_identity ["A"; "B"; "C"]
            [("s1", "Set One")] demo_recreated).
Proof.
  refine (proj1 (create_resets_checkpoint (fun _ => demo_client)
            "http://repo/oai" "dspace" "udea" demo_recreated demo_identity
            ["A"; "B"; "C"] [("s1", "Set One")] eq_refl eq_refl eq_refl
            _ _ _ _)).
  - discriminate.
  - refine (bool_decide_unpack _ _). vm_compute. exact I.
  - discriminate.
  - refine (bool_decide_unpack _ _). vm_compute. exact I.
Defined.

(** What a returning [create] tells about the endpoint and the store. *)
Lemma create_returns remote base_url db c st st' t :
  OxomoCheckPoint.create remote base_url db c st = (Ok (), st', t) ->
  exists idn ids sets,
    remote_identify (remote base_url) = Ok idn /\
    remote_listIdentifiers (remote base_url) None = Ok (LazySeq ids None) /\
    remote_listSets (remote base_url) = Ok (LazySeq sets None) /\
    ids <> [] /\ NoDup ids /\ sets <> [] /\ NoDup (map fst sets) /\
    st' = created db c idn ids sets st.
Proof.
  rewrite create_run. cbv zeta. intros Hrun.
  destruct (remote_identify (remote base_url)) as [idn|e]; [|done].
  destruct (remote_listIdentifiers (remote base_url) None)
    as [[ids [e|]]|e]; cbn [failure items] in Hrun; try done.
  destruct (apply_op (OpInsertMany db (c +:+ "_records_checkpoint") _) _)
    as [[r|e] st3] eqn:Hrec; [|done].
  destruct (remote_listSets (remote base_url)) as [[sets [e|]]|e];
    cbn [failure items] in Hrun; try done.
  destruct (apply_op (OpInsertMany db (c +:+ "_sets_checkpoint") _) _)
    as [[r'|e] st5] eqn:Hset; [|done].
  injection Hrun as <- _.
  apply apply_insert_many_fresh_inv in Hrec as (Hne1 & Hnd1 & ->);
    [|apply record_entries_stored].
  apply apply_insert_many_fresh_inv in Hset as (Hne2 & Hnd2 & ->);
    [|apply set_entries_stored].
  rewrite ids_of_record_entries in Hnd1. apply NoDup_ids in Hnd1.
  rewrite ids_of_set_entries in Hnd2. apply NoDup_ids in Hnd2.
  exists idn, ids, sets. repeat split; try done.
  - by destruct ids.
  - by destruct sets.
Qed.

(** X6. When [create] returns, the endpoint answered all three calls, neither
    listing was empty or named an identifier twice, and the store is the
    reset one. *)
Theorem create_ok_inv remote base_url db c st st' t :
  OxomoCheckPoint.create remote base_url db c st = (Ok (), st', t) ->
  exists idn ids sets,
    remote_identify (remote base_url) = Ok idn /\
    remote_listIdentifiers (remote base_url) None = Ok (LazySeq ids None) /\
    remote_listSets (remote base_url) = Ok (LazySeq sets None) /\
    ids <> [] /\ NoDup ids /\ sets <> [] /\ NoDup (map fst sets) /\
    st' = created db c idn ids sets st.
Proof. apply create_returns. Qed.

Lemma create_ok_inv_witness :
  exists st' t,
    OxomoCheckPoint.create (fun _ => demo_client) "http://repo/oai"
      "dspace" "udea" (Mongo ∅ 0) = (Ok (), st', t) /\
    exists idn ids sets,
      remote_identify demo_client = Ok idn /\
      remote_listIdentifiers demo_client None = Ok (LazySeq ids None) /\
      remote_listSets demo_client = Ok (LazySeq sets None) /\
      ids <> [] /\ NoDup ids /\ sets <> [] /\ NoDup (map fst sets) /\
      st' = created "dspace" "udea" idn ids sets (Mongo ∅ 0).
Proof.
  assert (Hrun : exists st' t,
    OxomoCheckPoint.create (fun _ => demo_client) "http://repo/oai"
      "dspace" "udea" (Mongo ∅ 0) = (Ok (), st', t))
    by (eexists _, _; vm_compute; reflexivity).
  destruct Hrun as (st' & t & Hrun). exists st', t. split; [exact Hrun|].
  exact (create_ok_inv (fun _ => demo_client) "http://repo/oai" "dspace" "udea"
           (Mongo ∅ 0) st' t Hrun).
Defined.

(** X7. An empty listing of the record identifiers: [create] has replaced the
    identity snapshot and dropped the record ledger when [insert_many]
    refuses the empty list; the error leaves [create], the record ledger is
    gone and the set ledger is as it was. *)
Theorem create_empty_listing remote base_url db c st idn :
  remote_identify (remote base_url) = Ok idn ->
  remote_listIdentifiers (remote base_url) None = Ok (LazySeq [] None) ->
  let run := OxomoCheckPoint.create remote base_url db c st in
  fst (fst run) = Raise EmptyInsertError /\
  colls (snd (fst run)) !! (db, c +:+ "_records_checkpoint") = None /\
  colls (snd (fst run)) !! (db, c +:+ "_sets_checkpoint") =
    colls st !! (db, c +:+ "_sets_checkpoint") /\
  checkpoint_exists (snd (fst run)) db c = false.
Proof.
  intros Hid Hids. cbv zeta. rewrite create_run. cbv zeta.
  rewrite Hid, Hids. cbn [failure items record_entries map apply_op fst snd].
  assert (Hrec : colls (drop_coll db (c +:+ "_records_checkpoint")
                   (with_identity db c idn st))
                 !! (db, c +:+ "_records_checkpoint") = None).
  { unfold drop_coll. cbn [colls]. by rewrite lookup_delete_eq. }
  repeat split; [done| |].
  - unfold drop_coll, with_identity. cbn [colls].
    rewrite lookup_delete_ne by (apply key_ne; discriminate).
    by rewrite lookup_insert_ne by (apply key_ne; discriminate).
  - unfold checkpoint_exists, has_collection. by rewrite Hrec.
Qed.

Lemma create_empty_listing_witness :
  remote_identify empty_client = Ok demo_identity /\
  remote_listIdentifiers empty_client None = Ok (LazySeq [] None) /\
  fst (fst (OxomoCheckPoint.create (fun _ => empty_client) "http://repo/oai"
              "dspace" "udea" (demo_checkpoint 0))) = Raise EmptyInsertError /\
  colls (snd (fst (OxomoCheckPoint.create (fun _ => empty_client)
                     "http://repo/oai" "dspace" "udea" (demo_checkpoint 0))))
    !! ("dspace", "udea" +:+ "_records_checkpoint") = None.
Proof.
  split; [reflexivity|]. split; [reflexivity|].
  pose proof (create_empty_listing (fun _ => empty_client) "http://repo/oai"
                "dspace" "udea" (demo_checkpoint 0) demo_identity
                eq_refl eq_refl) as H.
  cbv zeta in H. exact (conj (proj1 H) (proj1 (proj2 H))).
Defined.

(** X8. A listing that fails: when [identify] raises, [create] has touched
    nothing; when the listing of the record identifiers fails, the identity
    snapshot is already replaced and both ledgers are as they were; when the
    listing of the sets fails, the identity snapshot and the record ledger
    are already replaced and the set ledger is as it was. In each case the
    error leaves [create]. *)
Theorem create_listing_failure remote base_url db c st e :
  (remote_identify (remote base_url) = Raise e ->
   fst (OxomoCheckPoint.create remote base_url db c st) = (Raise e, st) /\
   store_ops (snd (OxomoCheckPoint.create remote base_url db c st)) = []) /\
  (forall idn,
     remote_identify (remote base_url) = Ok idn ->
     listing_fails (remote_listIdentifiers (remote base_url) None) e ->
     fst (OxomoCheckPoint.create remote base_url db c st) =
       (Raise e, with_identity db c idn st)) /\
  (forall idn ids,
     remote_identify (remote base_url) = Ok idn ->
     remote_listIdentifiers (remote base_url) None = Ok (LazySeq ids None) ->
     ids <> [] -> NoDup ids ->
     listing_fails (remote_listSets (remote base_url)) e ->
     fst (OxomoCheckPoint.create remote base_url db c st) =
       (Raise e, with_records db c ids (with_identity db c idn st))).
Proof.
  split; [|split].
  - intros Hid. rewrite create_run. cbv zeta. by rewrite Hid.
  - intros idn Hid Hfail. rewrite create_run. cbv zeta. rewrite Hid.
    destruct Hfail as [->|(s & -> & Hs)]; [done|]. by rewrite Hs.
  - intros idn ids Hid Hids Hne Hnd Hfail. rewrite create_run. cbv zeta.
    rewrite Hid, Hids. cbn [failure items].
    rewrite insert_records_fresh by done.
    destruct Hfail as [->|(s & -> & Hs)]; [done|]. by rewrite Hs.
Qed.

Lemma create_listing_failure_witness :
  remote_identify unlisted_client = Ok demo_identity /\
  listing_fails (remote_listIdentifiers unlisted_client None) timeout_exn /\
  fst (OxomoCheckPoint.create (fun _ => unlisted_client) "http://repo/oai"
         "dspace" "udea" (demo_checkpoint 0)) =
  (Raise timeout_exn, with_identity "dspace" "udea" demo_identity
                        (demo_checkpoint 0)).
Proof.
  assert (Hf : listing_fails (remote_listIdentifiers unlisted_client None)
                 timeout_exn) by (left; reflexivity).
  split; [reflexivity|]. split; [exact Hf|].
  exact (proj1 (proj2 (create_listing_failure (fun _ => unlisted_client)
                         "http://repo/oai" "dspace" "udea" (demo_checkpoint 0)
                         timeout_exn)) demo_identity eq_refl Hf).
Defined.

(** ** drop *)

Lemma drop_run db c st :
  OxomoCheckPoint.drop db c st =
  (Ok (),
   drop_coll db (c +:+ "_sets_checkpoint")
     (drop_coll db (c +:+ "_records_checkpoint")
        (drop_coll db (c +:+ "_identity") st)),
   [EvStore (OpDrop db (c +:+ "_identity"));
    EvStore (OpDrop db (c +:+ "_records_checkpoint"));
    EvStore (OpDrop db (c +:+ "_sets_checkpoint"))]).
Proof. reflexivity. Qed.

(** X4. [drop] always returns; afterwards the identity snapshot and both
    ledgers are gone, so the checkpoint no longer exists; every other
    collection - the outcome sinks among them - is as it was; and dropping
    again, or dropping a checkpoint that was never created, changes
    nothing. *)
Theorem drop_removes_checkpoint db c st :
  let st' := snd (fst (OxomoCheckPoint.drop db c st)) in
  fst (fst (OxomoCheckPoint.drop db c st)) = Ok () /\
  (forall sfx, In sfx ["_identity"; "_records_checkpoint"; "_sets_checkpoint"] ->
               colls st' !! (db, c +:+ sfx) = None) /\
  (forall k, k <> (db, c +:+ "_identity") ->
             k <> (db, c +:+ "_records_checkpoint") ->
             k <> (db, c +:+ "_sets_checkpoint") ->
             colls st' !! k = colls st !! k) /\
  checkpoint_exists st' db c = false /\
  snd (fst (OxomoCheckPoint.drop db c st')) = st' /\
  (colls st !! (db, c +:+ "_identity") = None ->
   colls st !! (db, c +:+ "_records_checkpoint") = None ->
   colls st !! (db, c +:+ "_sets_checkpoint") = None -> st' = st).
Proof.
  cbv zeta. rewrite !drop_run. cbn [fst snd]. unfold drop_coll. cbn [colls next_oid].
  split; [done|]. split; [|split; [|split; [|split]]].
  - intros sfx [<-|[<-|[<-|[]]]].
    + rewrite !lookup_delete_ne by (apply key_ne; discriminate).
      by rewrite lookup_delete_eq.
    + rewrite lookup_delete_ne by (apply key_ne; discriminate).
      by rewrite lookup_delete_eq.
    + by rewrite lookup_delete_eq.
  - intros k H1 H2 H3. by rewrite !lookup_delete_ne.
  - unfold checkpoint_exists, has_collection. cbn [colls].
    rewrite lookup_delete_ne by (apply key_ne; discriminate).
    by rewrite lookup_delete_eq.
  - f_equal. apply map_eq. intros k.
    destruct (decide (k = (db, c +:+ "_sets_checkpoint"))) as [->|H3];
      [by rewrite !lookup_delete_eq|].
    rewrite (lookup_delete_ne _ _ k) by done.
    destruct (decide (k = (db, c +:+ "_records_checkpoint"))) as [->|H2].
    { rewrite lookup_delete_eq.
      rewrite lookup_delete_ne by (apply key_ne; discriminate).
      by rewrite lookup_delete_eq. }
    rewrite (lookup_delete_ne _ _ k) by done.
    destruct (decide (k = (db, c +:+ "_identity"))) as [->|H1].
    { rewrite lookup_delete_eq.
      rewrite !lookup_delete_ne by (apply key_ne; discriminate).
      by rewrite lookup_delete_eq. }
    by rewrite !lookup_delete_ne.
  - intros H1 H2 H3. destruct st as [m n]. cbn [colls next_oid] in *.
    f_equal. rewrite (delete_id m) by done. rewrite (delete_id m) by done.
    by rewrite delete_id.
Qed.

Lemma drop_removes_checkpoint_witness :
  In "_records_checkpoint"
    ["_identity"; "_records_checkpoint"; "_sets_checkpoint"] /\
  colls (snd (fst (OxomoCheckPoint.drop "dspace" "udea" demo_recreated)))
    !! ("dspace", "udea" +:+ "_records_checkpoint") = None.
Proof.
  assert (Hin : In "_records_checkpoint"
                  ["_identity"; "_records_checkpoint"; "_sets_checkpoint"])
    by (simpl; tauto).
  split; [exact Hin|].
  exact (proj1 (proj2 (drop_removes_checkpoint "dspace" "udea" demo_recreated))
           "_records_checkpoint" Hin).
Defined.

(** ** The outcome of a set *)

(** X9. A set whose members are listed without failure: [process_set] inserts
    one Harvested Set (its [_id], its name and the member identifiers in
    listing order) into the sets sink and then marks its ledger entry, when
    the sink holds no document with this [_id]; when it does, [insert_one]
    raises [DuplicateKeyError], which leaves [process_set] with nothing
    written and the ledger not updated. *)
Theorem process_set_harvests_set self client identifier sid name s db c st :
  dict_get "_id" identifier = Some sid ->
  dict_get "name" identifier = Some name ->
  remote_listIdentifiers client (Some sid) = Ok s -> failure s = None ->
  let run := OxomoHarvester.process_set self client identifier db c st in
  let d := set_record sid name (items s) in
  let ledger := (OxomoHarvester.mongo_db self, c +:+ "_sets_checkpoint") in
  (existsb (has_id sid) (docs_of st db (c +:+ "_sets")) = false ->
   fst (fst run) = Ok () /\
   store_ops (snd run) =
     [OpInsertOne db (c +:+ "_sets") d;
      mark_set_done (OxomoHarvester.mongo_db self) c sid] /\
   docs_of (snd (fst run)) db (c +:+ "_sets") =
     docs_of st db (c +:+ "_sets") ++ [d] /\
   colls (snd (fst run)) !! ledger =
     update_first [("_id", sid)] [("status", VInt 1)] <$> colls st !! ledger) /\
  (existsb (has_id sid) (docs_of st db (c +:+ "_sets")) = true ->
   fst run = (Raise DuplicateKeyError, st) /\
   store_ops (snd run) = [OpInsertOne db (c +:+ "_sets") d]).
Proof.
  intros Hid Hname Hs Hfail. cbv zeta. rewrite process_set_run. cbv zeta.
  rewrite Hid, Hs, Hfail, Hname.
  assert (Hne : (db, c +:+ "_sets") <>
                (OxomoHarvester.mongo_db self, c +:+ "_sets_checkpoint"))
    by (apply key_ne; discriminate).
  split; intros Hsink.
  - rewrite (server_insert_ok _ _ _ sid) by done.
    cbn [fst snd apply_op mark_set_done store_ops omap list_omap].
    change (store_form sid (set_record sid name (items s)))
      with (set_record sid name (items s)).
    repeat split.
    + unfold docs_of. rewrite server_update_lookup, decide_False by done.
      cbn. by rewrite lookup_insert_eq.
    + rewrite server_update_lookup, decide_True by done. cbn.
      by rewrite lookup_insert_ne.
  - by rewrite (server_insert_dup _ _ _ sid).
Qed.

Lemma process_set_harvests_set_witness :
  let identifier := [("_id", VStr "s1"); ("name", VStr "Set One")] in
  dict_get "_id" identifier = Some (VStr "s1") /\
  dict_get "name" identifier = Some (VStr "Set One") /\
  remote_listIdentifiers demo_client (Some (VStr "s1")) =
    Ok (LazySeq ["A"; "B"] None) /\
  existsb (has_id (VStr "s1"))
    (docs_of (demo_checkpoint 0) "dspace" ("udea" +:+ "_sets")) = false /\
  docs_of (snd (fst (OxomoHarvester.process_set demo_harvester demo_client
                       identifier "dspace" "udea" (demo_checkpoint 0))))
    "dspace" ("udea" +:+ "_sets") =
  docs_of (demo_checkpoint 0) "dspace" ("udea" +:+ "_sets") ++
  [set_record (VStr "s1") (VStr "Set One") ["A"; "B"]].
Proof.
  cbv zeta.
  assert (Hfresh : existsb (has_id (VStr "s1"))
            (docs_of (demo_checkpoint 0) "dspace" ("udea" +:+ "_sets")) = false)
    by (vm_compute; reflexivity).
  split; [reflexivity|]. split; [reflexivity|]. split; [reflexivity|].
  split; [exact Hfresh|].
  pose proof (process_set_harvests_set demo_harvester demo_client
                [("_id", VStr "s1"); ("name", VStr "Set One")]
                (VStr "s1") (VStr "Set One") (LazySeq ["A"; "B"] None)
                "dspace" "udea" (demo_checkpoint 0)
                eq_refl eq_refl eq_refl eq_refl) as H.
  cbv zeta in H. exact (proj1 (proj2 (proj2 (proj1 H Hfresh)))).
Defined.

(** X10. A pending set entry without a name: the members are listed, then
    [identifier["name"]] raises [KeyError]; nothing is written and the
    ledger is not updated. *)
Theorem process_set_missing_name self client identifier sid s db c st :
  dict_get "_id" identifier = Some sid ->
  dict_get "name" identifier = None ->
  remote_listIdentifiers client (Some sid) = Ok s -> failure s = None ->
  OxomoHarvester.process_set self client identifier db c st =
  (Raise (KeyError "'name'"), st,
   [EvListIdentifiers (client_url client) (Some sid)]).
Proof.
  intros Hid Hname Hs Hfail. rewrite process_set_run. cbv zeta.
  by rewrite Hid, Hs, Hfail, Hname.
Qed.

Lemma process_set_missing_name_witness :
  dict_get "_id" [("_id", VStr "s1")] = Some (VStr "s1") /\
  dict_get "name" [("_id", VStr "s1")] = None /\
  OxomoHarvester.process_set demo_harvester demo_client [("_id", VStr "s1")]
    "dspace" "udea" (demo_checkpoint 0) =
  (Raise (KeyError "'name'"), demo_checkpoint 0,
   [EvListIdentifiers (client_url demo_client) (Some (VStr "s1"))]).
Proof.
  split; [reflexivity|]. split; [reflexivity|].
  exact (process_set_missing_name demo_harvester demo_client
           [("_id", VStr "s1")] (VStr "s1") (LazySeq ["A"; "B"] None)
           "dspace" "udea" (demo_checkpoint 0)
           eq_refl eq_refl eq_refl eq_refl).
Defined.

(** ** exists *)

(** X1. [exists] answers true exactly when both ledger collections are present,
    whatever they hold; it asks the driver for the collection names only and
    leaves the store as it is. An identity snapshot alone, or one ledger
    alone, is not a checkpoint. *)
Theorem exists_checks_both_ledgers db c st :
  exists b,
    OxomoCheckPoint.exists_ db c st =
      (Ok b, st, [EvStore (OpListCollectionNames db)]) /\
    (b = true <->
     is_Some (colls st !! (db, c +:+ "_records_checkpoint")) /\
     is_Some (colls st !! (db, c +:+ "_sets_checkpoint"))).
Proof.
  exists (checkpoint_exists st db c). split; [apply exists_run|].
  unfold checkpoint_exists, has_collection. rewrite andb_true_iff.
  destruct (colls st !! (db, c +:+ "_records_checkpoint")),
    (colls st !! (db, c +:+ "_sets_checkpoint")); split;
    try (intros [H1 H2]; try done; by (destruct H1 || destruct H2));
    intros; split; eauto.
Qed.

(** ** A pass that returns leaves nothing pending *)

Lemma has_id_true i d : has_id i d = true <-> dict_get "_id" d = Some i.
Proof.
  unfold has_id. destruct (dict_get "_id" d) as [w|]; [|split; done].
  rewrite value_eqb_eq. split; congruence.
Qed.

Lemma mark_ids i l : ids_of (mark i l) = ids_of l.
Proof.
  unfold mark. induction l as [|d l IH]; [done|]. cbn [update_first].
  destruct (matches [("_id", i)] d).
  - unfold ids_of. cbn [map fold_left fst snd]. f_equal.
    by apply dict_get_set_ne.
  - unfold ids_of in *. cbn [map]. by rewrite IH.
Qed.

Lemma marks_ids ids l : ids_of (marks ids l) = ids_of l.
Proof.
  unfold marks. revert l. induction ids as [|i ids IH]; intros l; [done|].
  cbn [fold_left]. by rewrite IH, mark_ids.
Qed.

Lemma marks_nil ids : marks ids [] = [].
Proof. unfold marks. induction ids as [|i ids IH]; [done|]. exact IH. Qed.

(** With distinct [_id]s, marking [i] leaves pending only entries that were
    pending before and have another [_id]. *)
Lemma mark_pending i l d :
  NoDup (ids_of l) -> In d (mark i l) -> pending d = true ->
  In d l /\ dict_get "_id" d <> Some i.
Proof.
  intros Hnd Hin Hp. unfold mark in Hin.
  destruct (update_first_spec [("_id", i)] [("status", VInt 1)] l)
    as [[Hnone Heq]|(pre & x & post & -> & Hpre & Hx & Heq)].
  - rewrite Heq in Hin. split; [done|]. intros Hid.
    rewrite List.Forall_forall in Hnone. specialize (Hnone d Hin).
    rewrite matches_id in Hnone. apply has_id_true in Hid. congruence.
  - rewrite Heq in Hin. cbn [fold_left fst snd] in Hin.
    rewrite matches_id in Hx. apply has_id_true in Hx.
    rewrite ids_of_app in Hnd. cbn [ids_of map] in Hnd. rewrite Hx in Hnd.
    apply NoDup_app in Hnd as (_ & Hdisj & Hpost).
    apply NoDup_cons in Hpost as [Hpost _].
    apply in_app_or in Hin as [Hin|[<-|Hin]].
    + split; [apply in_or_app; by left|]. intros Hid.
      apply (Hdisj (Some i)); [|by left].
      apply list_elem_of_In. rewrite <- Hid. by apply in_map.
    + unfold pending in Hp. by rewrite dict_get_set_eq in Hp.
    + split; [apply in_or_app; right; by right|]. intros Hid.
      apply Hpost. apply list_elem_of_In. rewrite <- Hid. by apply in_map.
Qed.

Lemma marks_all_done ids l :
  NoDup (ids_of l) ->
  (forall d, In d l -> pending d = true ->
             exists i, dict_get "_id" d = Some i /\ In i ids) ->
  Forall (fun d => pending d = false) (marks ids l).
Proof.
  unfold marks. revert l. induction ids as [|i ids IH]; intros l Hnd Hcov.
  - apply List.Forall_forall. intros d Hd. apply not_true_is_false. intros Hp.
    by destruct (Hcov d Hd Hp) as (j & _ & []).
  - cbn [fold_left]. apply IH; [by rewrite mark_ids|].
    intros d Hd Hp. destruct (mark_pending i l d Hnd Hd Hp) as [Hin Hne].
    destruct (Hcov d Hin Hp) as (j & Hj & [->|Hjin]); [done|eauto].
Qed.

Lemma process_record_ok_ledger self client i db c st st' t :
  OxomoHarvester.process_record self client i db c st = (Ok (), st', t) ->
  colls st' !! (OxomoHarvester.mongo_db self, c +:+ "_records_checkpoint") =
  mark i <$> colls st
               !! (OxomoHarvester.mongo_db self, c +:+ "_records_checkpoint").
Proof.
  rewrite process_record_run. cbv zeta. intros Hrun.
  pose proof (server_insert_other db (fst (record_outcome client i c))
                (snd (record_outcome client i c)) st _
                (not_eq_sym (record_sink_ne_ledger client i c db
                               (OxomoHarvester.mongo_db self)))) as Hi.
  destruct (server_insert _ _ _ _) as [[[]|e] st1]; [|done].
  injection Hrun as <- _. cbn [snd apply_op mark_record_done] in *.
  by rewrite server_update_lookup, decide_True, Hi.
Qed.

Lemma process_set_ok_ledger self client identifier db c st st' t :
  OxomoHarvester.process_set self client identifier db c st = (Ok (), st', t) ->
  exists sid,
    dict_get "_id" identifier = Some sid /\
    colls st' !! (OxomoHarvester.mongo_db self, c +:+ "_sets_checkpoint") =
    mark sid <$> colls st
                   !! (OxomoHarvester.mongo_db self, c +:+ "_sets_checkpoint").
Proof.
  rewrite process_set_run. cbv zeta. intros Hrun.
  assert (Hupd : forall sink d sid,
    (db, sink) <> (OxomoHarvester.mongo_db self, c +:+ "_sets_checkpoint") ->
    colls (server_update (OxomoHarvester.mongo_db self)
             (c +:+ "_sets_checkpoint") [("_id", sid)] [("status", VInt 1)]
             (snd (server_insert db sink d st)))
      !! (OxomoHarvester.mongo_db self, c +:+ "_sets_checkpoint") =
    mark sid <$> colls st
                   !! (OxomoHarvester.mongo_db self, c +:+ "_sets_checkpoint")).
  { intros sink d sid Hne.
    rewrite server_update_lookup, decide_True by done.
    by rewrite server_insert_other. }
  destruct (dict_get "_id" identifier) as [sid|].
  - exists sid. split; [done|].
    destruct (remote_listIdentifiers client (Some sid)) as [s|e].
    + destruct (failure s) as [e|]; [done|].
      destruct (dict_get "name" identifier) as [name|]; [|done].
      specialize (Hupd (c +:+ "_sets") (set_record sid name (items s)) sid
                    ltac:(apply key_ne; discriminate)).
      destruct (server_insert _ _ _ _) as [[[]|e] st1]; [|done].
      injection Hrun as <- _. exact Hupd.
    + specialize (Hupd (c +:+ "_errors")
                    (error_record (VDoc identifier) "set" e) sid
                    ltac:(apply key_ne; discriminate)).
      destruct (server_insert _ _ _ _) as [[[]|e'] st1]; [|done].
      injection Hrun as <- _. exact Hupd.
  - by destruct (server_insert _ _ _ _) as [[[]|e'] st1].
Qed.

Lemma marks_cons_lookup i ids (o : option (list doc)) :
  marks ids <$> (mark i <$> o) = marks (i :: ids) <$> o.
Proof. by destruct o. Qed.

Lemma record_sink_ne_sets_ledger client i c (db db' : string) :
  (db', c +:+ "_sets_checkpoint") <> (db, fst (record_outcome client i c)).
Proof.
  destruct (record_outcome_sink client i c) as (sfx & -> & Hin).
  apply key_ne. simpl in Hin. intuition subst; discriminate.
Qed.

(** The record phase, when it returns: the identifiers it was given are
    all there, their ledger entries were marked in order, and the set
    ledger is as it was. *)
Lemma in_order_records_ledger self client c docs st st' t :
  in_order (map (fun record =>
              id_ ← getitem record "_id";
              OxomoHarvester.process_record self client id_
                (OxomoHarvester.mongo_db self) c) docs) st =
  (Ok (), st', t) ->
  exists ids,
    map (dict_get "_id") docs = map Some ids /\
    colls st' !! (OxomoHarvester.mongo_db self, c +:+ "_records_checkpoint") =
    marks ids <$> colls st
      !! (OxomoHarvester.mongo_db self, c +:+ "_records_checkpoint") /\
    colls st' !! (OxomoHarvester.mongo_db self, c +:+ "_sets_checkpoint") =
    colls st !! (OxomoHarvester.mongo_db self, c +:+ "_sets_checkpoint").
Proof.
  revert st st' t. induction docs as [|d docs IH]; intros st st' t Hrun.
  - injection Hrun as <- <-. exists []. split; [done|]. split; [|done].
    unfold marks. cbn [fold_left]. by destruct (colls st !! _).
  - cbn [map in_order] in Hrun. rewrite !bind_run in Hrun.
    rewrite getitem_run in Hrun.
    destruct (dict_get "_id" d) as [i|] eqn:Hi; [|done].
    pose proof (process_record_frame self client i
                  (OxomoHarvester.mongo_db self) c st
                  (OxomoHarvester.mongo_db self, c +:+ "_sets_checkpoint")
                  (record_sink_ne_sets_ledger _ _ _ _ _)
                  ltac:(apply key_ne; discriminate)) as Hfr.
    destruct (OxomoHarvester.process_record self client i
                (OxomoHarvester.mongo_db self) c st)
      as [[[[]|e] st1] t1] eqn:Hrec; [|done].
    cbn [fst snd] in Hfr. apply process_record_ok_ledger in Hrec.
    destruct (in_order _ st1) as [[r2 st2] t2] eqn:Hrest.
    injection Hrun as -> <- _.
    destruct (IH _ _ _ Hrest) as (ids & Hids & Hrl & Hsl).
    exists (i :: ids). cbn [map]. rewrite Hi, Hids. split; [done|].
    rewrite Hrl, Hrec, Hsl, Hfr. split; [apply marks_cons_lookup|done].
Qed.

Lemma in_order_sets_ledger self client c docs st st' t :
  in_order (map (fun set_id =>
              OxomoHarvester.process_set self client set_id
                (OxomoHarvester.mongo_db self) c) docs) st =
  (Ok (), st', t) ->
  exists ids,
    map (dict_get "_id") docs = map Some ids /\
    colls st' !! (OxomoHarvester.mongo_db self, c +:+ "_sets_checkpoint") =
    marks ids <$> colls st
      !! (OxomoHarvester.mongo_db self, c +:+ "_sets_checkpoint") /\
    colls st' !! (OxomoHarvester.mongo_db self, c +:+ "_records_checkpoint") =
    colls st !! (OxomoHarvester.mongo_db self, c +:+ "_records_checkpoint").
Proof.
  revert st st' t. induction docs as [|d docs IH]; intros st st' t Hrun.
  - injection Hrun as <- <-. exists []. split; [done|]. split; [|done].
    unfold marks. cbn [fold_left]. by destruct (colls st !! _).
  - cbn [map in_order] in Hrun. rewrite !bind_run in Hrun.
    pose proof (process_set_frame self client d
                  (OxomoHarvester.mongo_db self) c st
                  (OxomoHarvester.mongo_db self, c +:+ "_records_checkpoint")
                  ltac:(apply key_ne; discriminate)
                  ltac:(apply key_ne; discriminate)
                  ltac:(apply key_ne; discriminate)) as Hfr.
    destruct (OxomoHarvester.process_set self client d
                (OxomoHarvester.mongo_db self) c st)
      as [[[[]|e] st1] t1] eqn:Hset; [|done].
    cbn [fst snd] in Hfr.
    apply process_set_ok_ledger in Hset as (i & Hi & Hset).
    destruct (in_order _ st1) as [[r2 st2] t2] eqn:Hrest.
    injection Hrun as -> <- _.
    destruct (IH _ _ _ Hrest) as (ids & Hids & Hsl & Hrl).
    exists (i :: ids). cbn [map]. rewrite Hi, Hids. split; [done|].
    rewrite Hsl, Hset, Hrl, Hfr. split; [apply marks_cons_lookup|done].
Qed.

Lemma docs_of_marks st st' db coll ids :
  colls st' !! (db, coll) = marks ids <$> colls st !! (db, coll) ->
  docs_of st' db coll = marks ids (docs_of st db coll).
Proof.
  unfold docs_of. intros ->. destruct (colls st !! (db, coll)); [done|].
  simpl. by rewrite marks_nil.
Qed.

Lemma pending_covered (l : list doc) ids :
  map (dict_get "_id")
    (map (dict_del "status") (filter (fun d => pending d = true) l)) =
  map Some ids ->
  forall d, In d l -> pending d = true ->
            exists i, dict_get "_id" d = Some i /\ In i ids.
Proof.
  rewrite ids_of_projection. intros Hids d Hd Hp.
  assert (Hin : In (dict_get "_id" d) (map Some ids)).
  { rewrite <- Hids. apply in_map. apply list_elem_of_In.
    apply list_elem_of_filter. split; [done|]. by apply list_elem_of_In. }
  apply in_map_iff in Hin as (i & Hi & Hin). eauto.
Qed.

(** One endpoint of [run] whose checkpoint exists, when the pass returns:
    each ledger is the one before with the entries of its pending [_id]s
    marked, in ledger order. *)
Lemma run_endpoint_marks remote host self url c st st' t :
  checkpoint_exists st (OxomoHarvester.mongo_db self) c = true ->
  OxomoHarvester.run_endpoint remote host self one_job (url, c) st = (Ok (), st', t) ->
  exists rids sids,
    ids_of (filter (fun d => pending d = true)
              (records_ledger st (OxomoHarvester.mongo_db self) c)) =
      map Some rids /\
    ids_of (filter (fun d => pending d = true)
              (sets_ledger st (OxomoHarvester.mongo_db self) c)) =
      map Some sids /\
    records_ledger st' (OxomoHarvester.mongo_db self) c =
      marks rids (records_ledger st (OxomoHarvester.mongo_db self) c) /\
    sets_ledger st' (OxomoHarvester.mongo_db self) c =
      marks sids (sets_ledger st (OxomoHarvester.mongo_db self) c) /\
    checkpoint_exists st' (OxomoHarvester.mongo_db self) c = true.
Proof.
  intros Hex Hrun. unfold OxomoHarvester.run_endpoint in Hrun.
  cbn [fst snd] in Hrun.
  rewrite bind_run, print_run, bind_run, exists_run, Hex in Hrun.
  rewrite bind_run in Hrun.
  unfold OxomoCheckPoint.get_records_regs in Hrun at 1.
  rewrite find_pending_run in Hrun. rewrite bind_run in Hrun.
  fold (records_ledger st (OxomoHarvester.mongo_db self) c) in Hrun.
  rewrite Parallel_one_job in Hrun.
  destruct (in_order _ st) as [[r1 st1] t1] eqn:Hrec in Hrun.
  destruct r1 as [[]|e]; [|by destruct t1; discriminate].
  apply in_order_records_ledger in Hrec as (rids & Hrids & Hrl1 & Hsl1).
  rewrite bind_run in Hrun.
  unfold OxomoCheckPoint.get_sets_regs in Hrun at 1.
  rewrite find_pending_run in Hrun.
  fold (sets_ledger st1 (OxomoHarvester.mongo_db self) c) in Hrun.
  rewrite Parallel_one_job in Hrun.
  destruct (in_order _ st1) as [[r2 st2] t2] eqn:Hset in Hrun.
  injection Hrun as -> <- _.
  apply in_order_sets_ledger in Hset as (sids & Hsids & Hsl2 & Hrl2).
  assert (Hsame : sets_ledger st1 (OxomoHarvester.mongo_db self) c =
                  sets_ledger st (OxomoHarvester.mongo_db self) c).
  { unfold sets_ledger, docs_of. by rewrite Hsl1. }
  rewrite Hsame in Hsids. rewrite ids_of_projection in Hrids, Hsids.
  rewrite Hrl1 in Hrl2. rewrite Hsl1 in Hsl2.
  exists rids, sids. split; [done|]. split; [done|].
  split; [by apply docs_of_marks|]. split; [by apply docs_of_marks|].
  unfold checkpoint_exists, has_collection in *. rewrite Hrl2, Hsl2.
  destruct (colls st !! (_, c +:+ "_records_checkpoint")); [|done].
  by destruct (colls st !! (_, c +:+ "_sets_checkpoint")).
Qed.

Lemma pending_filter_covered (l : list doc) ids :
  ids_of (filter (fun d => pending d = true) l) = map Some ids ->
  forall d, In d l -> pending d = true ->
            exists i, dict_get "_id" d = Some i /\ In i ids.
Proof.
  intros Hids d Hd Hp.
  assert (Hin : In (dict_get "_id" d) (map Some ids)).
  { rewrite <- Hids. apply in_map. apply list_elem_of_In.
    apply list_elem_of_filter. split; [done|]. by apply list_elem_of_In. }
  apply in_map_iff in Hin as (i & Hi & Hin). eauto.
Qed.

(** X11. A pass of [run] with one job over an endpoint whose checkpoint
    exists and whose ledgers hold each [_id] once: when the pass returns, no
    entry of the
    record ledger or of the set ledger is pending any more, both ledgers hold
    the same [_id]s in the same order as before, and the checkpoint still
    exists. *)
Theorem pass_leaves_nothing_pending remote host self url c st st' t :
  checkpoint_exists st (OxomoHarvester.mongo_db self) c = true ->
  NoDup (ids_of (records_ledger st (OxomoHarvester.mongo_db self) c)) ->
  NoDup (ids_of (sets_ledger st (OxomoHarvester.mongo_db self) c)) ->
  OxomoHarvester.run_endpoint remote host self one_job (url, c) st = (Ok (), st', t) ->
  Forall (fun d => pending d = false)
    (records_ledger st' (OxomoHarvester.mongo_db self) c) /\
  Forall (fun d => pending d = false)
    (sets_ledger st' (OxomoHarvester.mongo_db self) c) /\
  ids_of (records_ledger st' (OxomoHarvester.mongo_db self) c) =
    ids_of (records_ledger st (OxomoHarvester.mongo_db self) c) /\
  ids_of (sets_ledger st' (OxomoHarvester.mongo_db self) c) =
    ids_of (sets_ledger st (OxomoHarvester.mongo_db self) c) /\
  checkpoint_exists st' (OxomoHarvester.mongo_db self) c = true.
Proof.
  intros Hex Hndr Hnds Hrun.
  destruct (run_endpoint_marks _ _ _ _ _ _ _ _ Hex Hrun)
    as (rids & sids & Hrids & Hsids & -> & -> & Hex').
  rewrite !marks_ids. repeat split; try done.
  - apply marks_all_done; [done|]. by apply pending_filter_covered.
  - apply marks_all_done; [done|]. by apply pending_filter_covered.
Qed.

(** The resume scenario: after the pass over A (done), B, C and s1, nothing
    is pending. *)
Lemma pass_leaves_nothing_pending_witness :
  exists st' t,
    OxomoHarvester.run_endpoint (fun _ => demo_client) demo_host
      demo_harvester one_job
      ("http://repo/oai", "udea") demo_resumed = (Ok (), st', t) /\
    Forall (fun d => pending d = false) (records_ledger st' "dspace" "udea") /\
    Forall (fun d => pending d = false) (sets_ledger st' "dspace" "udea").
Proof.
  assert (Hrun : exists st' t,
             OxomoHarvester.run_endpoint (fun _ => demo_client) demo_host
      demo_harvester one_job
               ("http://repo/oai", "udea") demo_resumed = (Ok (), st', t))
    by (eexists _, _; vm_compute; reflexivity).
  destruct Hrun as (st' & t & Hrun). exists st', t. split; [exact Hrun|].
  assert (Hex : checkpoint_exists demo_resumed
                  (OxomoHarvester.mongo_db demo_harvester) "udea" = true)
    by (vm_compute; reflexivity).
  assert (Hndr : NoDup (ids_of (records_ledger demo_resumed
                   (OxomoHarvester.mongo_db demo_harvester) "udea"))).
  { apply (proj2 (NoDup_ids ["A"; "B"; "C"])).
    refine (bool_decide_unpack _ _). vm_compute. exact I. }
  assert (Hnds : NoDup (ids_of (sets_ledger demo_resumed
                   (OxomoHarvester.mongo_db demo_harvester) "udea"))).
  { apply (proj2 (NoDup_ids ["s1"])).
    refine (bool_decide_unpack _ _). vm_compute. exact I. }
  pose proof (pass_leaves_nothing_pending (fun _ => demo_client) demo_host
                demo_harvester "http://repo/oai" "udea" demo_resumed st' t
                Hex Hndr Hnds Hrun) as H.
  exact (conj (proj1 H) (proj1 (proj2 H))).
Defined.

(** ** A pass over a finished checkpoint *)

Lemma filter_pending_none (l : list doc) :
  Forall (fun d => pending d = false) l ->
  filter (fun d => pending d = true) l = [].
Proof.
  induction 1 as [|d l Hd _ IH]; [done|].
  rewrite filter_cons, decide_False by congruence. exact IH.
Qed.

(** X12. A pass of [run] with one job over an endpoint whose checkpoint
    exists and has no pending entry returns, leaves the store as it is,
    fetches no record
    and asks the driver only for the collection names and the pending
    entries of both ledgers. *)
Theorem finished_checkpoint_pass_is_idle remote host self url c st :
  checkpoint_exists st (OxomoHarvester.mongo_db self) c = true ->
  Forall (fun d => pending d = false)
    (records_ledger st (OxomoHarvester.mongo_db self) c) ->
  Forall (fun d => pending d = false)
    (sets_ledger st (OxomoHarvester.mongo_db self) c) ->
  OxomoHarvester.run_endpoint remote host self one_job (url, c) st =
  (Ok (), st, idle_events (OxomoHarvester.mongo_db self) url c).
Proof.
  intros Hex Hr Hs. unfold OxomoHarvester.run_endpoint. cbn [fst snd].
  rewrite bind_run, print_run, bind_run, exists_run, Hex.
  rewrite bind_run.
  unfold OxomoCheckPoint.get_records_regs at 1.
  rewrite find_pending_run.
  fold (records_ledger st (OxomoHarvester.mongo_db self) c).
  rewrite (filter_pending_none _ Hr), Parallel_one_job. cbn [map in_order].
  rewrite bind_run, mret_run, bind_run.
  unfold OxomoCheckPoint.get_sets_regs at 1.
  rewrite find_pending_run.
  fold (sets_ledger st (OxomoHarvester.mongo_db self) c).
  rewrite (filter_pending_none _ Hs), Parallel_one_job. cbn [map in_order].
  by rewrite mret_run.
Qed.

Lemma finished_checkpoint_pass_is_idle_witness :
  OxomoHarvester.run_endpoint (fun _ => demo_client) demo_host
      demo_harvester one_job
    ("http://repo/oai", "udea") demo_finished =
  (Ok (), demo_finished, idle_events "dspace" "http://repo/oai" "udea").
Proof.
  apply (finished_checkpoint_pass_is_idle (fun _ => demo_client) demo_host
           demo_harvester "http://repo/oai" "udea" demo_finished).
  - vm_compute. reflexivity.
  - vm_compute. repeat constructor.
  - vm_compute. repeat constructor.
Defined.

(** ** From [create] to the end of the first pass *)

Lemma update_first_at flt upd (pre : list doc) d post :
  Forall (fun x => matches flt x = false) pre -> matches flt d = true ->
  update_first flt upd (pre ++ d :: post) =
  pre ++ fold_left (fun acc kv => dict_set (fst kv) (snd kv) acc) upd d :: post.
Proof.
  intros Hpre Hd. induction Hpre as [|x pre Hx _ IH]; cbn [app update_first].
  - by rewrite Hd.
  - by rewrite Hx, IH.
Qed.

(** Marking, one after the other, the entries of a ledger that holds each
    [_id] once and only pending entries makes each of them done. *)
Lemma marks_entries {A} (key : A -> value) (e0 e1 : A -> doc) (xs : list A) :
  (forall a, dict_get "_id" (e0 a) = Some (key a)) ->
  (forall a, dict_get "_id" (e1 a) = Some (key a)) ->
  (forall a, dict_set "status" (VInt 1) (e0 a) = e1 a) ->
  NoDup (map key xs) ->
  marks (map key xs) (map e0 xs) = map e1 xs.
Proof.
  intros H0 H1 Hset Hnd.
  enough (Hgen : forall rest dp,
             NoDup (map key (dp ++ rest)) ->
             marks (map key rest) (map e1 dp ++ map e0 rest) =
             map e1 (dp ++ rest)) by exact (Hgen xs [] Hnd).
  clear Hnd. induction rest as [|a rest IH]; intros dp Hnd.
  - by rewrite !app_nil_r.
  - unfold marks. cbn [map fold_left]. unfold mark at 2.
    rewrite update_first_at.
    + cbn [fold_left fst snd]. rewrite Hset.
      change (marks (map key rest) (map e1 dp ++ e1 a :: map e0 rest) =
              map e1 (dp ++ a :: rest)).
      rewrite (cons_middle a dp rest), app_assoc in Hnd |- *.
      rewrite <- (IH (dp ++ [a]) Hnd). by rewrite map_app, <- app_assoc.
    + apply List.Forall_forall. intros d Hd.
      apply in_map_iff in Hd as (b & <- & Hb).
      rewrite matches_id. apply not_true_is_false. intros Hm.
      apply has_id_true in Hm. rewrite H1 in Hm. injection Hm as Hm.
      rewrite map_app in Hnd. apply NoDup_app in Hnd as (_ & Hdisj & _).
      apply (Hdisj (key b)).
      * apply list_elem_of_In. by apply in_map.
      * rewrite Hm. cbn [map]. by left.
    + rewrite matches_id. by apply has_id_true.
Qed.

Lemma map_Some_inj {A} (l1 l2 : list A) :
  map Some l1 = map Some l2 -> l1 = l2.
Proof.
  revert l2. induction l1 as [|a l1 IH]; intros [|b l2]; try done.
  cbn [map]. intros [= -> H]. f_equal. by apply IH.
Qed.

Lemma filter_pending_all (l : list doc) :
  Forall (fun d => pending d = true) l ->
  filter (fun d => pending d = true) l = l.
Proof.
  induction 1 as [|d l Hd _ IH]; [done|].
  by rewrite filter_cons, decide_True, IH.
Qed.

Lemma records_ledger_created db c idn ids sets st :
  records_ledger (created db c idn ids sets st) db c = record_entries ids.
Proof.
  unfold records_ledger, docs_of, created, with_sets, with_records.
  cbn [colls]. rewrite lookup_insert_ne by (apply key_ne; discriminate).
  by rewrite lookup_insert_eq.
Qed.

Lemma sets_ledger_created db c idn ids sets st :
  sets_ledger (created db c idn ids sets st) db c = set_entries sets.
Proof.
  unfold sets_ledger, docs_of, created, with_sets. cbn [colls].
  by rewrite lookup_insert_eq.
Qed.

(** X13. [create] followed by a pass of [run] with one job over the same
    endpoint and database, both returning: the pass fetches every identifier
    the endpoint
    listed, once and in listing order, and leaves the record ledger and the
    set ledger holding exactly the listed records and sets, each done. *)
Theorem create_then_run_harvests_all remote host self url c st st1 t1 st2 t2 :
  OxomoCheckPoint.create remote url (OxomoHarvester.mongo_db self) c st =
    (Ok (), st1, t1) ->
  OxomoHarvester.run_endpoint remote host self one_job (url, c) st1 = (Ok (), st2, t2) ->
  exists ids sets,
    remote_listIdentifiers (remote url) None = Ok (LazySeq ids None) /\
    remote_listSets (remote url) = Ok (LazySeq sets None) /\
    fetched t2 = map VStr ids /\
    records_ledger st2 (OxomoHarvester.mongo_db self) c =
      done_record_entries ids /\
    sets_ledger st2 (OxomoHarvester.mongo_db self) c = done_set_entries sets.
Proof.
  intros Hcreate Hrun.
  apply create_returns in Hcreate
    as (idn & ids & sets & _ & Hids & Hsets & _ & Hnd & _ & Hnds & ->).
  exists ids, sets. split; [done|]. split; [done|].
  pose proof (checkpoint_exists_created (OxomoHarvester.mongo_db self) c
                idn ids sets st) as Hex.
  pose proof (run_endpoint_fetched _ _ _ _ _ _ _ _ Hex Hrun) as Hf.
  destruct (run_endpoint_marks _ _ _ _ _ _ _ _ Hex Hrun)
    as (rids & sids & Hrids & Hsids & -> & -> & _).
  rewrite records_ledger_created in *. rewrite sets_ledger_created in *.
  assert (Hpr : Forall (fun d => pending d = true) (record_entries ids)).
  { apply List.Forall_forall. intros d Hd.
    by apply in_map_iff in Hd as (i & <- & _). }
  assert (Hps : Forall (fun d => pending d = true) (set_entries sets)).
  { apply List.Forall_forall. intros d Hd.
    by apply in_map_iff in Hd as (s & <- & _). }
  rewrite (filter_pending_all _ Hpr) in Hf, Hrids.
  rewrite (filter_pending_all _ Hps) in Hsids.
  fold (ids_of (record_entries ids)) in Hf.
  rewrite ids_of_record_entries, <- (map_map VStr Some) in Hf, Hrids.
  rewrite ids_of_set_entries, <- (map_map VStr Some) in Hsids.
  apply map_Some_inj in Hf. apply map_Some_inj in Hrids, Hsids.
  subst rids sids. split; [done|]. split.
  - apply (marks_entries VStr (fun i => ledger_entry i 0)
             (fun i => ledger_entry i 1)); try done.
    apply NoDup_ids in Hnd. by rewrite <- (map_map VStr Some) in Hnd;
      apply NoDup_fmap_1 in Hnd.
  - rewrite map_map.
    apply (marks_entries (fun s => VStr (fst s))
             (fun s => set_entry (fst s) (snd s) 0)
             (fun s => set_entry (fst s) (snd s) 1)); try done.
    apply NoDup_ids in Hnds. rewrite map_map in Hnds.
    rewrite <- (map_map (fun s => VStr (fst s)) Some) in Hnds.
    by apply NoDup_fmap_1 in Hnds.
Qed.

Lemma create_then_run_harvests_all_witness :
  exists t1 st2 t2,
    OxomoCheckPoint.create (fun _ => demo_client) "http://repo/oai"
      "dspace" "udea" (Mongo ∅ 0) =
    (Ok (), created "dspace" "udea" demo_identity ["A"; "B"; "C"]
              [("s1", "Set One")] (Mongo ∅ 0), t1) /\
    OxomoHarvester.run_endpoint (fun _ => demo_client) demo_host
      demo_harvester one_job
      ("http://repo/oai", "udea")
      (created "dspace" "udea" demo_identity ["A"; "B"; "C"]
         [("s1", "Set One")] (Mongo ∅ 0)) = (Ok (), st2, t2) /\
    exists ids sets,
      remote_listIdentifiers demo_client None = Ok (LazySeq ids None) /\
      remote_listSets demo_client = Ok (LazySeq sets None) /\
      fetched t2 = map VStr ids /\
      records_ledger st2 "dspace" "udea" = done_record_entries ids /\
      sets_ledger st2 "dspace" "udea" = done_set_entries sets.
Proof.
  assert (Hcreate : exists t1,
             OxomoCheckPoint.create (fun _ => demo_client) "http://repo/oai"
               (OxomoHarvester.mongo_db demo_harvester) "udea" (Mongo ∅ 0) =
             (Ok (), created "dspace" "udea" demo_identity ["A"; "B"; "C"]
                       [("s1", "Set One")] (Mongo ∅ 0), t1))
    by (eexists; vm_compute; reflexivity).
  destruct Hcreate as (t1 & Hcreate).
  assert (Hrun : exists st2 t2,
             OxomoHarvester.run_endpoint (fun _ => demo_client) demo_host
      demo_harvester one_job
               ("http://repo/oai", "udea")
               (created "dspace" "udea" demo_identity ["A"; "B"; "C"]
                  [("s1", "Set One")] (Mongo ∅ 0)) = (Ok (), st2, t2))
    by (eexists _, _; vm_compute; reflexivity).
  destruct Hrun as (st2 & t2 & Hrun).
  exists t1, st2, t2. split; [exact Hcreate|]. split; [exact Hrun|].
  exact (create_then_run_harvests_all (fun _ => demo_client) demo_host demo_harvester
           "http://repo/oai" "udea" (Mongo ∅ 0) _ t1 st2 t2 Hcreate Hrun).
Defined.

(** ** A listing that names an identifier twice *)

Lemma server_insert_many_app db c ds1 ds2 st :
  server_insert_many db c (ds1 ++ ds2) st =
  match server_insert_many db c ds1 st with
  | (Ok _, st1) => server_insert_many db c ds2 st1
  | (Raise e, st1) => (Raise e, st1)
  end.
Proof.
  revert st. induction ds1 as [|d ds1 IH]; intros st; [done|].
  cbn [app server_insert_many].
  destruct (server_insert db c d st) as [[[]|e] st1]; [apply IH|done].
Qed.

(** A bulk insert into a collection that was just dropped, of documents
    whose first repeated [_id] is that of [d]: the documents before [d]
    are kept and the insert raises. *)
Lemma apply_insert_many_repeated db c ds1 d ds2 st :
  Forall stored ds1 -> NoDup (ids_of ds1) ->
  (exists v, dict_get "_id" d = Some v /\ In (Some v) (ids_of ds1)) ->
  apply_op (OpInsertMany db c (ds1 ++ d :: ds2)) (drop_coll db c st) =
  (Raise BulkWriteError, Mongo (<[(db, c) := ds1]> (colls st)) (next_oid st)).
Proof.
  intros Hst Hnd (v & Hv & Hin). cbn [apply_op].
  destruct ds1 as [|d1 ds1]; [done|].
  change (match server_insert_many db c ((d1 :: ds1) ++ d :: ds2)
                  (drop_coll db c st) with
          | (Ok _, st') => (Ok RUnit, st')
          | (Raise e, st') => (Raise e, st')
          end = (Raise BulkWriteError,
                 Mongo (<[(db, c) := d1 :: ds1]> (colls st)) (next_oid st))).
  rewrite server_insert_many_app.
  rewrite server_insert_many_ok; [|done|].
  - cbn [server_insert_many]. rewrite (server_insert_dup _ _ _ v); [|done|].
    + rewrite docs_of_drop_coll. unfold drop_coll. cbn [colls next_oid app].
      by rewrite insert_delete_eq.
    + apply not_false_iff_true. intros Hf. apply existsb_has_id in Hf.
      apply Hf. unfold docs_of at 1. cbn [colls]. rewrite lookup_insert_eq.
      cbn [default id]. rewrite ids_of_app. apply in_or_app. by right.
  - right. split; [done|]. intros w _. rewrite docs_of_drop_coll. by intros [].
Qed.

(** X14. [create] on a listing that names an identifier a second time
    raises the driver's bulk write error: the identity snapshot is already
    replaced, the record ledger holds the entries listed before the
    repetition, and the set ledger is as it was. *)
Theorem create_repeated_identifier remote base_url db c st idn pre i post :
  remote_identify (remote base_url) = Ok idn ->
  remote_listIdentifiers (remote base_url) None =
    Ok (LazySeq (pre ++ i :: post) None) ->
  NoDup pre -> In i pre ->
  fst (OxomoCheckPoint.create remote base_url db c st) =
    (Raise BulkWriteError,
     with_records db c pre (with_identity db c idn st)) /\
  colls (with_records db c pre (with_identity db c idn st))
    !! (db, c +:+ "_sets_checkpoint") =
  colls st !! (db, c +:+ "_sets_checkpoint").
Proof.
  intros Hid Hids Hnd Hin. split.
  - rewrite create_run. cbv zeta. rewrite Hid, Hids. cbn [failure items].
    unfold record_entries at 1. rewrite map_app. cbn [map].
    fold (record_entries pre). fold (record_entries post).
    rewrite apply_insert_many_repeated; [done| | |].
    + apply record_entries_stored.
    + rewrite ids_of_record_entries. by apply NoDup_ids.
    + exists (VStr i). split; [done|]. rewrite ids_of_record_entries.
      by apply (in_map (fun j => Some (VStr j))).
  - unfold with_records, with_identity. cbn [colls].
    by rewrite !lookup_insert_ne by (apply key_ne; discriminate).
Qed.

Lemma create_repeated_identifier_witness :
  fst (OxomoCheckPoint.create (fun _ => repeating_client) "http://repo/oai"
         "dspace" "udea" (demo_checkpoint 0)) =
  (Raise BulkWriteError,
   with_records "dspace" "udea" ["A"; "B"]
     (with_identity "dspace" "udea" demo_identity (demo_checkpoint 0))).
Proof.
  refine (proj1 (create_repeated_identifier (fun _ => repeating_client)
                   "http://repo/oai" "dspace" "udea" (demo_checkpoint 0)
                   demo_identity ["A"; "B"] "A" ["C"] eq_refl eq_refl _ _)).
  - refine (bool_decide_unpack _ _). vm_compute. exact I.
  - simpl. by left.
Defined.

(** ** A harvest stopped between the outcome and the ledger *)

Lemma has_id_store_form v d : has_id v (store_form v d) = true.
Proof.
  unfold has_id, store_form. cbn [dict_get]. cbn. apply value_eqb_refl.
Qed.

(** The first pending record of a pass whose outcome is already in its
    sink: the pass raises at that record and changes nothing. *)
Lemma run_endpoint_blocked remote host self url c st d rest i :
  checkpoint_exists st (OxomoHarvester.mongo_db self) c = true ->
  filter (fun d => pending d = true)
    (records_ledger st (OxomoHarvester.mongo_db self) c) = d :: rest ->
  dict_get "_id" d = Some i ->
  existsb (has_id i)
    (docs_of st (OxomoHarvester.mongo_db self)
       (fst (record_outcome (remote url) i c))) = true ->
  OxomoHarvester.run_endpoint remote host self one_job (url, c) st =
  (Raise DuplicateKeyError, st,
   [EvPrint [VStr "=== Processing "; VStr c; VStr " from "; VStr url;
             VStr " "];
    EvStore (OpListCollectionNames (OxomoHarvester.mongo_db self));
    EvStore (OpFind (OxomoHarvester.mongo_db self)
               (c +:+ "_records_checkpoint") [("status", VInt 0)] ["status"]);
    EvGetRecord (client_url (remote url)) i;
    EvStore (OpInsertOne (OxomoHarvester.mongo_db self)
               (fst (record_outcome (remote url) i c))
               (snd (record_outcome (remote url) i c)))]).
Proof.
  intros Hex Hpend Hid Hdup. unfold OxomoHarvester.run_endpoint.
  cbn [fst snd].
  rewrite bind_run, print_run, bind_run, exists_run, Hex.
  rewrite bind_run.
  unfold OxomoCheckPoint.get_records_regs at 1.
  rewrite find_pending_run.
  fold (records_ledger st (OxomoHarvester.mongo_db self) c).
  rewrite Hpend, Parallel_one_job. cbn [map in_order].
  rewrite !bind_run, getitem_run, dict_get_del_ne, Hid by done.
  rewrite process_record_run. cbv zeta.
  by rewrite (server_insert_dup _ _ _ i)
    by (done || apply record_outcome_id).
Qed.

(** X15. A pass with one job stopped right after the outcome of its first
    pending record was inserted, before the ledger update: the entry is
    still pending. A later pass with one job over that endpoint, in which
    the outcome of that record goes to the same sink, raises the driver's
    duplicate key error at that record, before any other record is fetched,
    and leaves the store as it found it. *)
Theorem stop_after_insert_blocks_resume remote remote' host self url c st d
    rest i :
  checkpoint_exists st (OxomoHarvester.mongo_db self) c = true ->
  filter (fun d => pending d = true)
    (records_ledger st (OxomoHarvester.mongo_db self) c) = d :: rest ->
  dict_get "_id" d = Some i ->
  fst (fst (OxomoHarvester.process_record self (remote url) i
              (OxomoHarvester.mongo_db self) c st)) = Ok () ->
  fst (record_outcome (remote' url) i c) =
    fst (record_outcome (remote url) i c) ->
  let st1 := interrupted (OxomoHarvester.process_record self (remote url) i
                            (OxomoHarvester.mongo_db self) c) st 1 in
  records_ledger st1 (OxomoHarvester.mongo_db self) c =
    records_ledger st (OxomoHarvester.mongo_db self) c /\
  OxomoHarvester.run_endpoint remote' host self one_job (url, c) st1 =
    (Raise DuplicateKeyError, st1,
     [EvPrint [VStr "=== Processing "; VStr c; VStr " from "; VStr url;
               VStr " "];
      EvStore (OpListCollectionNames (OxomoHarvester.mongo_db self));
      EvStore (OpFind (OxomoHarvester.mongo_db self)
                 (c +:+ "_records_checkpoint") [("status", VInt 0)]
                 ["status"]);
      EvGetRecord (client_url (remote' url)) i;
      EvStore (OpInsertOne (OxomoHarvester.mongo_db self)
                 (fst (record_outcome (remote' url) i c))
                 (snd (record_outcome (remote' url) i c)))]).
Proof.
  intros Hex Hpend Hid Hok Hsink. cbv zeta. unfold interrupted.
  rewrite process_record_run in Hok |- *. cbv zeta in Hok |- *.
  pose proof (record_outcome_id (remote url) i c) as Hdoc.
  pose proof (server_insert_other (OxomoHarvester.mongo_db self)
                (fst (record_outcome (remote url) i c))
                (snd (record_outcome (remote url) i c)) st) as Hfr.
  destruct (existsb (has_id i)
              (docs_of st (OxomoHarvester.mongo_db self)
                 (fst (record_outcome (remote url) i c)))) eqn:Hnew.
  { by rewrite (server_insert_dup _ _ _ i) in Hok. }
  rewrite (server_insert_ok _ _ _ i) in Hfr |- * by done.
  cbn [snd store_ops omap list_omap take replay fold_left apply_op] in Hfr |- *.
  rewrite (server_insert_ok _ _ _ i) by done. cbn [snd] in Hfr |- *.
  set (st1 := Mongo _ _) in *.
  assert (Hrl : colls st1 !! (OxomoHarvester.mongo_db self,
                              c +:+ "_records_checkpoint") =
                colls st !! (OxomoHarvester.mongo_db self,
                             c +:+ "_records_checkpoint")).
  { apply Hfr, not_eq_sym, record_sink_ne_ledger. }
  assert (Hsl : colls st1 !! (OxomoHarvester.mongo_db self,
                              c +:+ "_sets_checkpoint") =
                colls st !! (OxomoHarvester.mongo_db self,
                             c +:+ "_sets_checkpoint")).
  { apply Hfr, record_sink_ne_sets_ledger. }
  assert (Hsame : records_ledger st1 (OxomoHarvester.mongo_db self) c =
                  records_ledger st (OxomoHarvester.mongo_db self) c).
  { unfold records_ledger, docs_of. by rewrite Hrl. }
  split; [exact Hsame|].
  apply (run_endpoint_blocked remote' host self url c st1 d rest i).
  - unfold checkpoint_exists, has_collection in *. by rewrite Hrl, Hsl.
  - by rewrite Hsame.
  - done.
  - rewrite Hsink. unfold docs_of, st1. cbn [colls].
    rewrite lookup_insert_eq. cbn [default id].
    rewrite existsb_app. cbn [existsb]. rewrite has_id_store_form.
    by rewrite orb_true_r.
Qed.

(** The scenario stopped after the record A was written to the record sink:
    A is still pending and the next pass raises at A without fetching B or
    C. *)
Lemma stop_after_insert_blocks_resume_witness :
  let st1 := interrupted (OxomoHarvester.process_record demo_harvester
                            demo_client (VStr "A") "dspace" "udea")
               (demo_checkpoint 0) 1 in
  records_ledger st1 "dspace" "udea" =
    records_ledger (demo_checkpoint 0) "dspace" "udea" /\
  OxomoHarvester.run_endpoint (fun _ => demo_client) demo_host
    demo_harvester one_job ("http://repo/oai", "udea") st1 =
  (Raise DuplicateKeyError, st1,
   [EvPrint [VStr "=== Processing "; VStr "udea"; VStr " from ";
             VStr "http://repo/oai"; VStr " "];
    EvStore (OpListCollectionNames "dspace");
    EvStore (OpFind "dspace" "udea_records_checkpoint" [("status", VInt 0)]
               ["status"]);
    EvGetRecord "http://repo/oai" (VStr "A");
    EvStore (OpInsertOne "dspace" "udea_records"
               [("title", VList [VStr "Tesis"]); ("_id", VStr "A")])]).
Proof.
  apply (stop_after_insert_blocks_resume (fun _ => demo_client)
           (fun _ => demo_client) demo_host
           demo_harvester "http://repo/oai" "udea" (demo_checkpoint 0)
           (ledger_entry "A" 0) [ledger_entry "B" 0; ledger_entry "C" 0]
           (VStr "A")).
  - vm_compute. reflexivity.
  - vm_compute. reflexivity.
  - reflexivity.
  - vm_compute. reflexivity.
  - reflexivity.
Defined.

(** ** Marking an entry, then asking for the pending ones *)

Lemma has_id_projection i d : has_id i (dict_del "status" d) = has_id i d.
Proof. unfold has_id. by rewrite dict_get_del_ne. Qed.

Lemma filter_pending_unmarked i (l : list doc) :
  Forall (fun d => has_id i d = false) l ->
  filter (fun d => has_id i d = false)
    (map (dict_del "status") (filter (fun d => pending d = true) l)) =
  map (dict_del "status") (filter (fun d => pending d = true) l).
Proof.
  induction 1 as [|d l Hd _ IH]; [done|].
  rewrite (filter_cons (fun d => pending d = true)).
  destruct (decide (pending d = true)); [|exact IH].
  cbn [map]. rewrite filter_cons, decide_True, IH; [done|].
  by rewrite has_id_projection.
Qed.

(** In a ledger that holds each [_id] once, marking [i] removes from the
    pending entries the one with that [_id], and nothing else. *)
Lemma pending_after_mark i (l : list doc) :
  NoDup (ids_of l) ->
  map (dict_del "status") (filter (fun d => pending d = true) (mark i l)) =
  filter (fun d => has_id i d = false)
    (map (dict_del "status") (filter (fun d => pending d = true) l)).
Proof.
  unfold mark. induction l as [|d l IH]; intros Hnd; [done|].
  cbn [ids_of map] in Hnd. apply NoDup_cons in Hnd as [Hd Hnd].
  cbn [update_first]. rewrite matches_id.
  destruct (has_id i d) eqn:Hi.
  - cbn [fold_left fst snd]. rewrite !filter_cons.
    rewrite decide_False by (unfold pending; by rewrite dict_get_set_eq).
    apply has_id_true in Hi.
    assert (Hrest : Forall (fun x => has_id i x = false) l).
    { apply List.Forall_forall. intros x Hx. apply not_true_is_false.
      intros Hx'. apply has_id_true in Hx'. apply Hd.
      apply list_elem_of_In. rewrite Hi, <- Hx'. by apply in_map. }
    destruct (decide (pending d = true)).
    + cbn [map]. rewrite filter_cons, decide_False.
      * by rewrite filter_pending_unmarked.
      * rewrite has_id_projection. apply has_id_true in Hi. by rewrite Hi.
    + by rewrite filter_pending_unmarked.
  - rewrite !filter_cons. destruct (decide (pending d = true)).
    + cbn [map]. rewrite filter_cons, decide_True
        by (by rewrite has_id_projection).
      f_equal. by apply IH.
    + by apply IH.
Qed.

Lemma update_one_run db coll flt upd st :
  update_one db coll flt upd st =
  (Ok (), server_update db coll flt upd st,
   [EvStore (OpUpdateOne db coll flt upd)]).
Proof. reflexivity. Qed.

Lemma docs_of_server_update db coll i st :
  docs_of (server_update db coll [("_id", i)] [("status", VInt 1)] st) db coll =
  mark i (docs_of st db coll).
Proof.
  unfold docs_of. rewrite server_update_lookup, decide_True by done.
  by destruct (colls st !! (db, coll)).
Qed.

Lemma server_update_unmatched db coll flt upd st :
  Forall (fun d => matches flt d = false) (docs_of st db coll) ->
  server_update db coll flt upd st = st.
Proof.
  unfold server_update, docs_of. intros Hall.
  destruct (colls st !! (db, coll)) as [cur|] eqn:Hcur; [|done].
  cbn [default] in Hall.
  destruct (update_first_spec flt upd cur)
    as [[_ ->]|(pre & d & post & -> & _ & Hd & _)].
  - rewrite insert_id by done. by destruct st.
  - apply Forall_app in Hall as [_ Hall]. apply Forall_cons in Hall as [Hf _].
    congruence.
Qed.

Lemma update_then_find db coll i st regs :
  NoDup (ids_of (docs_of st db coll)) ->
  fst (fst (find db coll [("status", VInt 0)] ["status"] st)) = Ok regs ->
  fst (fst (find db coll [("status", VInt 0)] ["status"]
              (snd (fst (update_one db coll [("_id", i)] [("status", VInt 1)]
                           st))))) =
  Ok (filter (fun d => has_id i d = false) regs).
Proof.
  intros Hnd. rewrite update_one_run, !find_pending_run. cbn [fst snd].
  intros [= <-]. by rewrite docs_of_server_update, pending_after_mark.
Qed.

(** X16. In a ledger that holds each [_id] once, [update_record] followed by
    [get_records_regs] returns what [get_records_regs] returned before
    without the entry of the updated [_id], in the same order; the same for
    [update_set] and [get_sets_regs]. An update for an [_id] the ledger does
    not hold, or on a ledger that does not exist, changes nothing: no entry
    and no collection is created. *)
Theorem update_then_get_drops_entry db c i st :
  (NoDup (ids_of (records_ledger st db c)) ->
   forall regs,
     fst (fst (OxomoCheckPoint.get_records_regs db c st)) = Ok regs ->
     fst (fst (OxomoCheckPoint.get_records_regs db c
                 (snd (fst (OxomoCheckPoint.update_record db c [("_id", i)]
                              st))))) =
     Ok (filter (fun d => has_id i d = false) regs)) /\
  (NoDup (ids_of (sets_ledger st db c)) ->
   forall regs,
     fst (fst (OxomoCheckPoint.get_sets_regs db c st)) = Ok regs ->
     fst (fst (OxomoCheckPoint.get_sets_regs db c
                 (snd (fst (OxomoCheckPoint.update_set db c [("_id", i)]
                              st))))) =
     Ok (filter (fun d => has_id i d = false) regs)) /\
  (Forall (fun d => has_id i d = false) (records_ledger st db c) ->
   OxomoCheckPoint.update_record db c [("_id", i)] st =
   (Ok (), st,
    [EvStore (OpUpdateOne db (c +:+ "_records_checkpoint") [("_id", i)]
                [("status", VInt 1)])])) /\
  (Forall (fun d => has_id i d = false) (sets_ledger st db c) ->
   OxomoCheckPoint.update_set db c [("_id", i)] st =
   (Ok (), st,
    [EvStore (OpUpdateOne db (c +:+ "_sets_checkpoint") [("_id", i)]
                [("status", VInt 1)])])).
Proof.
  split; [|split; [|split]].
  - intros Hnd regs. by apply update_then_find.
  - intros Hnd regs. by apply update_then_find.
  - intros Hall. unfold OxomoCheckPoint.update_record.
    rewrite update_one_run, server_update_unmatched; [done|].
    eapply Forall_impl; [exact Hall|]. intros d. by rewrite matches_id.
  - intros Hall. unfold OxomoCheckPoint.update_set.
    rewrite update_one_run, server_update_unmatched; [done|].
    eapply Forall_impl; [exact Hall|]. intros d. by rewrite matches_id.
Qed.

(** The checkpoint of the scenario: after B was marked, A and C are what
    [get_records_regs] returns. *)
Lemma update_then_get_drops_entry_witness :
  fst (fst (OxomoCheckPoint.get_records_regs "dspace" "udea"
              (snd (fst (OxomoCheckPoint.update_record "dspace" "udea"
                           [("_id", VStr "B")] (demo_checkpoint 0)))))) =
  Ok [[("_id", VStr "A")]; [("_id", VStr "C")]].
Proof.
  refine (proj1 (update_then_get_drops_entry "dspace" "udea" (VStr "B")
                   (demo_checkpoint 0)) _
            [[("_id", VStr "A")]; [("_id", VStr "B")]; [("_id", VStr "C")]]
            _).
  - apply (proj2 (NoDup_ids ["A"; "B"; "C"])).
    refine (bool_decide_unpack _ _). vm_compute. exact I.
  - vm_compute. reflexivity.
Defined.

(** ** A checkpoint created again over a sink that was harvested *)

Lemma record_sink_ne_identity client i c (db db' : string) :
  (db, fst (record_outcome client i c)) <> (db', c +:+ "_identity").
Proof.
  destruct (record_outcome_sink client i c) as (sfx & -> & Hin).
  apply key_ne. simpl in Hin. intuition subst; discriminate.
Qed.

Lemma docs_of_created_sink client i db c idn ids sets st :
  docs_of (created db c idn ids sets st) db (fst (record_outcome client i c)) =
  docs_of st db (fst (record_outcome client i c)).
Proof.
  unfold docs_of, created, with_sets, with_records, with_identity.
  cbn [colls].
  rewrite lookup_insert_ne by apply record_sink_ne_sets_ledger.
  rewrite lookup_insert_ne by apply not_eq_sym, record_sink_ne_ledger.
  by rewrite lookup_insert_ne by apply not_eq_sym, record_sink_ne_identity.
Qed.

(** X17. [create] does not touch the sinks. So when it returns on a store
    whose sink already holds the outcome of the first listed record, every
    listed record is pending again, and the pass of [run] with one job that
    follows raises the driver's duplicate key error at that record and
    leaves the store as [create] left it. *)
Theorem recreated_checkpoint_blocks_run remote host self url c st st1 t1 i ids :
  OxomoCheckPoint.create remote url (OxomoHarvester.mongo_db self) c st =
    (Ok (), st1, t1) ->
  remote_listIdentifiers (remote url) None = Ok (LazySeq (i :: ids) None) ->
  existsb (has_id (VStr i))
    (docs_of st (OxomoHarvester.mongo_db self)
       (fst (record_outcome (remote url) (VStr i) c))) = true ->
  docs_of st1 (OxomoHarvester.mongo_db self)
    (fst (record_outcome (remote url) (VStr i) c)) =
  docs_of st (OxomoHarvester.mongo_db self)
    (fst (record_outcome (remote url) (VStr i) c)) /\
  records_ledger st1 (OxomoHarvester.mongo_db self) c =
    record_entries (i :: ids) /\
  fst (OxomoHarvester.run_endpoint remote host self one_job (url, c) st1) =
    (Raise DuplicateKeyError, st1).
Proof.
  intros Hcreate Hids Hdup.
  apply create_returns in Hcreate
    as (idn & ids' & sets & _ & Hids' & _ & _ & _ & _ & _ & ->).
  rewrite Hids in Hids'. injection Hids' as <-.
  split; [apply docs_of_created_sink|].
  split; [apply records_ledger_created|].
  rewrite (run_endpoint_blocked remote host self url c _ (ledger_entry i 0)
             (record_entries ids) (VStr i)); [done| | | |].
  - apply checkpoint_exists_created.
  - rewrite records_ledger_created.
    apply (filter_pending_all (record_entries (i :: ids))).
    apply List.Forall_forall. intros d Hd.
    by apply in_map_iff in Hd as (j & <- & _).
  - done.
  - by rewrite docs_of_created_sink.
Qed.

(** The scenario: A was harvested, then the checkpoint is created again. *)
Lemma recreated_checkpoint_blocks_run_witness :
  exists t1,
    OxomoCheckPoint.create (fun _ => demo_client) "http://repo/oai"
      "dspace" "udea" demo_recreated =
    (Ok (), created "dspace" "udea" demo_identity ["A"; "B"; "C"]
              [("s1", "Set One")] demo_recreated, t1) /\
    fst (OxomoHarvester.run_endpoint (fun _ => demo_client) demo_host
      demo_harvester one_job
           ("http://repo/oai", "udea")
           (created "dspace" "udea" demo_identity ["A"; "B"; "C"]
              [("s1", "Set One")] demo_recreated)) =
    (Raise DuplicateKeyError,
     created "dspace" "udea" demo_identity ["A"; "B"; "C"]
       [("s1", "Set One")] demo_recreated).
Proof.
  assert (Hcreate : exists t1,
             OxomoCheckPoint.create (fun _ => demo_client) "http://repo/oai"
               (OxomoHarvester.mongo_db demo_harvester) "udea" demo_recreated =
             (Ok (), created "dspace" "udea" demo_identity ["A"; "B"; "C"]
                       [("s1", "Set One")] demo_recreated, t1))
    by (eexists; vm_compute; reflexivity).
  destruct Hcreate as (t1 & Hcreate). exists t1. split; [exact Hcreate|].
  refine (proj2 (proj2 (recreated_checkpoint_blocks_run
            (fun _ => demo_client) demo_host demo_harvester
            "http://repo/oai" "udea" demo_recreated _ t1
            "A" ["B"; "C"] Hcreate eq_refl _))).
  vm_compute. reflexivity.
Defined.

(** ** process_set when the listing fails *)

(** X18. The two ways the member listing of a set can fail. When the call
    itself raises, [process_set] returns: its driver calls are the insert of
    one error document, whose [_id] is the whole set item, and the update of
    the set ledger, provided the errors sink holds no document with that
    [_id]. When the call returns and the sequence fails while it is
    iterated, whatever the client and the error, the error leaves
    [process_set]: no driver call is made and the store is unchanged. *)
Theorem process_set_listing_failures self client identifier sid e db c st :
  dict_get "_id" identifier = Some sid ->
  (remote_listIdentifiers client (Some sid) = Raise e ->
   existsb (has_id (VDoc identifier)) (docs_of st db (c +:+ "_errors")) =
     false ->
   let run := OxomoHarvester.process_set self client identifier db c st in
   fst (fst run) = Ok () /\
   store_ops (snd run) =
     [OpInsertOne db (c +:+ "_errors")
        (error_record (VDoc identifier) "set" e);
      mark_set_done (OxomoHarvester.mongo_db self) c sid] /\
   docs_of (snd (fst run)) db (c +:+ "_errors") =
     docs_of st db (c +:+ "_errors") ++
     [error_record (VDoc identifier) "set" e]) /\
  (forall s,
     remote_listIdentifiers client (Some sid) = Ok s ->
     failure s = Some e ->
     OxomoHarvester.process_set self client identifier db c st =
     (Raise e, st, [EvListIdentifiers (client_url client) (Some sid)])).
Proof.
  intros Hid. split.
  - intros Hcall Hfresh. by apply process_set_call_failure_recorded.
  - intros s Hcall Hfail. rewrite process_set_run. cbv zeta.
    by rewrite Hid, Hcall, Hfail.
Qed.

Lemma process_set_listing_failures_witness :
  OxomoHarvester.process_set demo_harvester flaky_client
    [("_id", VStr "s1"); ("name", VStr "Set One")] "dspace" "udea"
    (demo_checkpoint 0) =
  (Raise timeout_exn, demo_checkpoint 0,
   [EvListIdentifiers (client_url flaky_client) (Some (VStr "s1"))]).
Proof.
  exact (proj2 (process_set_listing_failures demo_harvester flaky_client
                  [("_id", VStr "s1"); ("name", VStr "Set One")] (VStr "s1")
                  timeout_exn "dspace" "udea" (demo_checkpoint 0) eq_refl)
           _ eq_refl eq_refl).
Defined.

(** X19. A set item without [_id]: the key error raised inside the [try] is
    caught and recorded as an error document, then the handler asks the item
    for its [_id] again and the key error leaves [process_set]. The errors
    sink has gained the document (unless it held one with that [_id], in
    which case the insert raises instead), and the set ledger is as it
    was. *)
Theorem process_set_missing_id self client identifier db c st :
  dict_get "_id" identifier = None ->
  let d := error_record (VDoc identifier) "set" (KeyError "'_id'") in
  let run := OxomoHarvester.process_set self client identifier db c st in
  store_ops (snd run) = [OpInsertOne db (c +:+ "_errors") d] /\
  colls (snd (fst run))
    !! (OxomoHarvester.mongo_db self, c +:+ "_sets_checkpoint") =
  colls st !! (OxomoHarvester.mongo_db self, c +:+ "_sets_checkpoint") /\
  (existsb (has_id (VDoc identifier)) (docs_of st db (c +:+ "_errors")) =
     false ->
   fst (fst run) = Raise (KeyError "'_id'") /\
   docs_of (snd (fst run)) db (c +:+ "_errors") =
     docs_of st db (c +:+ "_errors") ++ [d]) /\
  (existsb (has_id (VDoc identifier)) (docs_of st db (c +:+ "_errors")) =
     true ->
   fst run = (Raise DuplicateKeyError, st)).
Proof.
  intros Hid. cbv zeta. rewrite process_set_run. cbv zeta. rewrite Hid.
  pose proof (server_insert_other db (c +:+ "_errors")
                (error_record (VDoc identifier) "set" (KeyError "'_id'")) st
                (OxomoHarvester.mongo_db self, c +:+ "_sets_checkpoint")
                ltac:(apply key_ne; discriminate)) as Hfr.
  destruct (existsb (has_id (VDoc identifier))
              (docs_of st db (c +:+ "_errors"))) eqn:Hdup.
  - rewrite (server_insert_dup _ _ _ (VDoc identifier)) in Hfr |- * by done.
    split; [done|]. split; [done|]. split; [done|]. by intros _.
  - rewrite (server_insert_ok _ _ _ (VDoc identifier)) in Hfr |- * by done.
    cbn [fst snd] in Hfr |- *.
    split; [done|]. split; [done|]. split; [|done].
    intros _. split; [done|]. unfold docs_of at 1. cbn [colls].
    by rewrite lookup_insert_eq.
Qed.

Lemma process_set_missing_id_witness :
  let d := error_record (VDoc nameless_item) "set" (KeyError "'_id'") in
  let run := OxomoHarvester.process_set demo_harvester demo_client
               nameless_item "dspace" "udea" (demo_checkpoint 0) in
  store_ops (snd run) = [OpInsertOne "dspace" "udea_errors" d] /\
  fst (fst run) = Raise (KeyError "'_id'").
Proof.
  pose proof (process_set_missing_id demo_harvester demo_client nameless_item
                "dspace" "udea" (demo_checkpoint 0) eq_refl) as H.
  cbv zeta in H. destruct H as (Hops & _ & Hnew & _).
  split; [exact Hops|]. apply Hnew. vm_compute. reflexivity.
Defined.

(** ** process_record: one outcome, one transition *)

Lemma find_first {A} (f : A -> bool) (l : list A) d :
  List.find f l = Some d ->
  exists pre post,
    l = pre ++ d :: post /\ Forall (fun x => f x = false) pre /\ f d = true.
Proof.
  induction l as [|x l IH]; [done|]. cbn [List.find].
  destruct (f x) eqn:Hx.
  - intros [= ->]. by exists [], l.
  - intros Hl. destruct (IH Hl) as (pre & post & -> & Hpre & Hd).
    exists (x :: pre), post. repeat split; [|done]. by constructor.
Qed.

Lemma mark_one_transition i (l : list doc) :
  pending_entry i l = true -> one_transition i l (mark i l).
Proof.
  unfold pending_entry. destruct (List.find (has_id i) l) as [d|] eqn:Hf;
    [|done].
  intros Hp. destruct (find_first _ _ _ Hf) as (pre & post & -> & Hpre & Hd).
  exists pre, d, post. repeat split; try done.
  - unfold mark. rewrite update_first_at; [done| |by rewrite matches_id].
    eapply Forall_impl; [exact Hpre|]. intros x. by rewrite matches_id.
  - apply mark_is_done.
Qed.

Lemma mark_unlisted i (l : list doc) :
  Forall (fun d => has_id i d = false) l -> mark i l = l.
Proof.
  intros Hall. unfold mark.
  destruct (update_first_spec [("_id", i)] [("status", VInt 1)] l)
    as [[_ ->]|(pre & d & post & -> & _ & Hd & _)]; [done|].
  apply Forall_app in Hall as [_ Hall]. apply Forall_cons in Hall as [Hf _].
  rewrite matches_id in Hd. congruence.
Qed.

Lemma records_ledger_marked self client i db c st st' t :
  OxomoHarvester.process_record self client i db c st = (Ok (), st', t) ->
  records_ledger st' (OxomoHarvester.mongo_db self) c =
  mark i (records_ledger st (OxomoHarvester.mongo_db self) c).
Proof.
  intros Hrun. apply process_record_ok_ledger in Hrun.
  unfold records_ledger, docs_of. rewrite Hrun.
  by destruct (colls st !! _).
Qed.

(** C1, as amended. An invocation of [process_record] on a sink that holds
    no document with the identifier of the record writes exactly one outcome
    document (the error record in the errors sink when [getRecord] raises,
    the deletion marker in the deleted sink when the header is flagged
    deleted, the metadata map with [_id] in the records sink otherwise) and
    then updates the record ledger of the harvester's database once: when
    the first entry of the identifier there is pending, exactly that entry
    goes from pending to done; when the ledger holds no entry of the
    identifier, it stays as it is. On a sink that already holds a document
    with the identifier, [insert_one] raises [DuplicateKeyError], which
    leaves [process_record]: nothing is written and the ledger is not
    updated. *)
Theorem process_record_one_outcome self client i db c st :
  let sink := fst (record_outcome client i c) in
  let d := snd (record_outcome client i c) in
  let run := OxomoHarvester.process_record self client i db c st in
  (existsb (has_id i) (docs_of st db sink) = false ->
   one_outcome_one_update self client i db c st /\
   (pending_entry i (records_ledger st (OxomoHarvester.mongo_db self) c) =
      true ->
    one_outcome_one_transition self client i db c st) /\
   (Forall (fun x => has_id i x = false)
      (records_ledger st (OxomoHarvester.mongo_db self) c) ->
    records_ledger (snd (fst run)) (OxomoHarvester.mongo_db self) c =
    records_ledger st (OxomoHarvester.mongo_db self) c)) /\
  (existsb (has_id i) (docs_of st db sink) = true ->
   run = (Raise DuplicateKeyError, st,
          [EvGetRecord (client_url client) i;
           EvStore (OpInsertOne db sink d)])).
Proof.
  cbv zeta. split.
  - intros Hfresh.
    pose proof (process_record_fresh_sink self client i db c st Hfresh)
      as Hone.
    assert (Hled : records_ledger
              (snd (fst (OxomoHarvester.process_record self client i db c st)))
              (OxomoHarvester.mongo_db self) c =
            mark i (records_ledger st (OxomoHarvester.mongo_db self) c)).
    { destruct Hone as (Hok & _).
      destruct (OxomoHarvester.process_record self client i db c st)
        as [[r st'] t] eqn:Hrun. cbn [fst snd] in *. subst r.
      by apply (records_ledger_marked _ _ _ _ _ _ _ _ Hrun). }
    split; [exact Hone|]. split.
    + intros Hp. split; [exact Hone|]. rewrite Hled.
      by apply mark_one_transition.
    + intros Hnone. rewrite Hled. by apply mark_unlisted.
  - intros Hdup. rewrite process_record_run. cbv zeta.
    by rewrite (server_insert_dup _ _ _ i) by (apply record_outcome_id || done).
Qed.

(** The scenario: A is fetched into the record sink and its entry goes from
    pending to done; B and C stay pending. *)
Lemma process_record_one_outcome_witness :
  existsb (has_id (VStr "A"))
    (docs_of (demo_checkpoint 0) "dspace"
       (fst (record_outcome demo_client (VStr "A") "udea"))) = false /\
  pending_entry (VStr "A")
    (records_ledger (demo_checkpoint 0) "dspace" "udea") = true /\
  one_outcome_one_transition demo_harvester demo_client (VStr "A")
    "dspace" "udea" (demo_checkpoint 0) /\
  records_ledger
    (snd (fst (OxomoHarvester.process_record demo_harvester demo_client
                 (VStr "A") "dspace" "udea" (demo_checkpoint 0))))
    "dspace" "udea" =
  [ledger_entry "A" 1; ledger_entry "B" 0; ledger_entry "C" 0].
Proof.
  assert (Hfresh : existsb (has_id (VStr "A"))
            (docs_of (demo_checkpoint 0) "dspace"
               (fst (record_outcome demo_client (VStr "A") "udea"))) = false)
    by reflexivity.
  assert (Hp : pending_entry (VStr "A")
            (records_ledger (demo_checkpoint 0) "dspace" "udea") = true)
    by reflexivity.
  split; [exact Hfresh|]. split; [exact Hp|]. split.
  - exact (proj1 (proj2 (proj1 (process_record_one_outcome demo_harvester
                                  demo_client (VStr "A") "dspace" "udea"
                                  (demo_checkpoint 0)) Hfresh)) Hp).
  - vm_compute. reflexivity.
Defined.

(** C1 as stated fails twice. On the recreated checkpoint the record sink
    already holds a document with [_id] A: [insert_one] raises
    [DuplicateKeyError], nothing is written and the ledger is not updated.
    On a ledger without an entry for A the record is written and the
    invocation returns, but no entry goes from pending to done: the ledger
    stays as it is. *)
Lemma process_record_duplicate_raises :
  (OxomoHarvester.process_record demo_harvester demo_client (VStr "A")
     "dspace" "udea" demo_recreated =
   (Raise DuplicateKeyError, demo_recreated,
    [EvGetRecord "http://repo/oai" (VStr "A");
     EvStore (OpInsertOne "dspace" "udea_records"
                [("title", VList [VStr "Tesis"]); ("_id", VStr "A")])]) /\
   ~ one_outcome_one_transition demo_harvester demo_client (VStr "A")
       "dspace" "udea" demo_recreated) /\
  (fst (fst (OxomoHarvester.process_record demo_harvester demo_client
               (VStr "A") "dspace" "udea" demo_unlisted)) = Ok () /\
   records_ledger
     (snd (fst (OxomoHarvester.process_record demo_harvester demo_client
                  (VStr "A") "dspace" "udea" demo_unlisted)))
     "dspace" "udea" = records_ledger demo_unlisted "dspace" "udea" /\
   ~ one_outcome_one_transition demo_harvester demo_client (VStr "A")
       "dspace" "udea" demo_unlisted).
Proof.
  split.
  - assert (H : OxomoHarvester.process_record demo_harvester demo_client
                  (VStr "A") "dspace" "udea" demo_recreated =
                (Raise DuplicateKeyError, demo_recreated,
                 [EvGetRecord "http://repo/oai" (VStr "A");
                  EvStore (OpInsertOne "dspace" "udea_records"
                    [("title", VList [VStr "Tesis"]); ("_id", VStr "A")])]))
      by (vm_compute; reflexivity).
    split; [exact H|].
    unfold one_outcome_one_transition, one_outcome_one_update. rewrite H.
    cbn [fst snd]. intros [[Hok _] _]. discriminate.
  - split; [vm_compute; reflexivity|]. split; [vm_compute; reflexivity|].
    unfold one_outcome_one_transition. intros [_ Htr].
    destruct Htr as (pre & d & post & Hbefore & Hpre & Hd & _).
    assert (Hl : records_ledger demo_unlisted
                   (OxomoHarvester.mongo_db demo_harvester) "udea" =
                 [ledger_entry "B" 0; ledger_entry "C" 0])
      by (vm_compute; reflexivity).
    rewrite Hl in Hbefore.
    destruct pre as [|x [|y [|z pre]]]; cbn [app] in Hbefore.
    + injection Hbefore as <- _. discriminate Hd.
    + injection Hbefore as _ <- _. discriminate Hd.
    + by injection Hbefore.
    + by injection Hbefore.
Qed.

(** ** Stopped between the outcome and the ledger *)













(** ** The database of the outcome and the database of the ledger *)




